(** * vscode_execute.py: the execution bridge of the VSCode-Unreal-Python plugin

    A shallow embedding of [src/python/vscode_execute.py] and the properties
    of its specification.

    - Python [str] values are Rocq strings whose characters are the code
      points 0..255 (ASCII and Latin-1); the string methods the script uses
      ([in], [lower], [isdigit], [split], [join], [replace], [strip],
      slicing) and the one regular expression are written out.
    - The interpreter state the script touches is passed explicitly: the
      module global [__VsCodeVariables__] (one dictionary object, aliased by
      every caller), the three logging attributes of the host module
      [unreal], the messages that reached an output channel and the files.
    - [compile] and [exec] are Python built-ins: they are the parameters
      [py_compile] and [py_exec] of the development, and every theorem holds
      for every interpreter. [py_exec] gives the result of an execution that
      ends, normally or by an exception; a script that never ends blocks the
      host and has no result. The examples run on [Mini], a table of a few
      scripts with the behaviour CPython gives them.
    - The callables in the three logging attributes are sinks: a call
      records its message and returns.
    - [traceback.format_exception] is a library function that can itself
      raise (for instance on a SyntaxError object built with a text that is
      no string): an exception object carries what the function does with
      it, the list of strings or the exception raised. The exceptions that
      [compile] raises are built by the interpreter and are always
      formatted. *)

From Stdlib Require Import String Ascii List NArith Bool Lia.
From stdpp Require Import base option list strings gmap.

(** ** Characters *)

Definition code_point (c : ascii) : N := N_of_ascii c.

Definition chr (n : N) : ascii := ascii_of_N n.

Definition dquote_char : ascii := chr 34.
Definition newline_char : ascii := chr 10.
Definition comma_char : ascii := chr 44.

(** The one-character strings that Rocq string literals cannot hold. *)
Definition dq : string := String dquote_char EmptyString.
Definition nl : string := String newline_char EmptyString.

Definition in_range (lo hi n : N) : bool := (lo <=? n)%N && (n <=? hi)%N.

(** [str.lower] on one code point below 256: A-Z, and the Latin-1 capitals
    0xC0-0xDE except the multiplication sign 0xD7, move up by 32. *)
Definition char_lower (c : ascii) : ascii :=
  let n := code_point c in
  if in_range 65 90 n || (in_range 192 222 n && negb (n =? 215)%N)
  then chr (n + 32) else c.

(** [str.isdigit] on one code point below 256: 0-9 and the superscripts
    two, three (0xB2, 0xB3) and one (0xB9). *)
Definition char_isdigit (c : ascii) : bool :=
  let n := code_point c in
  in_range 48 57 n || (n =? 178)%N || (n =? 179)%N || (n =? 185)%N.

(** [\d] of the [re] module on a [str] pattern: the decimal digits, which
    below 256 are 0-9 only. *)
Definition char_re_digit (c : ascii) : bool := in_range 48 57 (code_point c).

(** [str.isspace] on one code point below 256, as [str.strip] uses it. *)
Definition char_isspace (c : ascii) : bool :=
  let n := code_point c in
  in_range 9 13 n || in_range 28 32 n || (n =? 133)%N || (n =? 160)%N.

Definition char_eqb (a b : ascii) : bool := Ascii.eqb a b.

(** ** Python string operations *)

(** [s.startswith(p)] *)
Fixpoint str_startswith (p s : string) : bool :=
  match p with
  | EmptyString => true
  | String a p' =>
      match s with
      | EmptyString => false
      | String b s' => char_eqb a b && str_startswith p' s'
      end
  end.

(** [needle in hay] *)
Fixpoint str_contains (needle hay : string) : bool :=
  str_startswith needle hay ||
  match hay with
  | EmptyString => false
  | String _ hay' => str_contains needle hay'
  end.

(** [s.lower()] *)
Fixpoint str_lower (s : string) : string :=
  match s with
  | EmptyString => EmptyString
  | String c s' => String (char_lower c) (str_lower s')
  end.

(** [s[n:]] *)
Fixpoint str_drop (n : nat) (s : string) : string :=
  match n, s with
  | O, _ => s
  | S n', String _ s' => str_drop n' s'
  | S _, EmptyString => EmptyString
  end.

(** [s[:-1]]: the string without its last character; the empty string stays
    empty. *)
Fixpoint str_drop_last (s : string) : string :=
  match s with
  | EmptyString => EmptyString
  | String c EmptyString => EmptyString
  | String c s' => String c (str_drop_last s')
  end.

(** [''.join(x for x in s if x.isdigit())] *)
Fixpoint str_digits (s : string) : string :=
  match s with
  | EmptyString => EmptyString
  | String c s' =>
      if char_isdigit c then String c (str_digits s') else str_digits s'
  end.

(** The text before the first [sep] and the text after it, when [s] has one. *)
Fixpoint str_partition (sep : ascii) (s : string) : option (string * string) :=
  match s with
  | EmptyString => None
  | String c s' =>
      if char_eqb c sep then Some (EmptyString, s')
      else match str_partition sep s' with
           | Some (before, after) => Some (String c before, after)
           | None => None
           end
  end.

(** [s.split(sep, maxsplit)] for a one-character separator: at most
    [maxsplit] cuts, from the left. *)
Fixpoint str_split (sep : ascii) (maxsplit : nat) (s : string) : list string :=
  match maxsplit with
  | O => [s]
  | S m =>
      match str_partition sep s with
      | Some (before, after) => before :: str_split sep m after
      | None => [s]
      end
  end.

(** [sep.join(parts)] *)
Fixpoint str_join (sep : string) (parts : list string) : string :=
  match parts with
  | [] => EmptyString
  | [p] => p
  | p :: rest => p +:+ sep +:+ str_join sep rest
  end.

(** [s.replace(c, '', 1)]: the first occurrence of [c] is removed. *)
Fixpoint str_remove_first (c : ascii) (s : string) : string :=
  match s with
  | EmptyString => EmptyString
  | String a s' => if char_eqb a c then s' else String a (str_remove_first c s')
  end.

(** [s.lstrip()], [s.rstrip()], [s.strip()] *)
Fixpoint str_lstrip (s : string) : string :=
  match s with
  | EmptyString => EmptyString
  | String c s' => if char_isspace c then str_lstrip s' else s
  end.

Fixpoint str_rstrip (s : string) : string :=
  match s with
  | EmptyString => EmptyString
  | String c s' =>
      match str_rstrip s' with
      | EmptyString => if char_isspace c then EmptyString else String c EmptyString
      | t => String c t
      end
  end.

Definition str_strip (s : string) : string := str_rstrip (str_lstrip s).

(** [''.join(parts)] *)
Definition str_concat (parts : list string) : string :=
  fold_right String.append EmptyString parts.

(** ** The regular expression of the frame-header test

    [re.findall(pattern, s)] of line 126 is non-empty exactly when the
    pattern matches somewhere in [s]. Writing Q for the quote character, the
    pattern is [file Q.*Q, line \d*, in ]: the text [re_open], then any
    characters other than a newline, then [re_close], decimal digits, and
    [re_in]. *)

Definition re_open : string := "file " +:+ dq.
Definition re_close : string := dq +:+ ", line ".
Definition re_in : string := ", in ".

Fixpoint re_skip_digits (s : string) : string :=
  match s with
  | String c s' => if char_re_digit c then re_skip_digits s' else s
  | EmptyString => EmptyString
  end.

(** [Q, line \d*, in ] at the start of [s]. A digit is not a comma, so the
    greedy run of digits is the only candidate for [\d*]. *)
Definition re_match_tail (s : string) : bool :=
  str_startswith re_close s &&
  str_startswith re_in (re_skip_digits (str_drop (String.length re_close) s)).

(** [.*Q, line \d*, in ] at the start of [s]: [.] is any character but a
    newline. *)
Fixpoint re_match_body (s : string) : bool :=
  re_match_tail s ||
  match s with
  | EmptyString => false
  | String c s' => negb (char_eqb c newline_char) && re_match_body s'
  end.

Definition re_match_here (s : string) : bool :=
  str_startswith re_open s && re_match_body (str_drop (String.length re_open) s).

Fixpoint re_frame_header_search (s : string) : bool :=
  re_match_here s ||
  match s with
  | EmptyString => false
  | String _ s' => re_frame_header_search s'
  end.

(** ** The reformatting loop of [execute_code] *)

(** [execute_code.__name__] *)
Definition execute_code_name : string := "execute_code".

(** Lines 127-130: the frame header is cut at its first two commas, the
    digits of the second part are the line number, and the first part, less
    its last character, is wrapped as [Q<part>:<number>Q]. [components[1]]
    raises IndexError when the line has no comma: [None]. *)
Definition rewrite_frame_header (line : string) : option string :=
  let components := str_split comma_char 2 line in
  match components with
  | c0 :: c1 :: rest =>
      let line_number := str_digits c1 in
      let c0' := dq +:+ str_drop_last c0 +:+ ":" +:+ line_number +:+ dq in
      Some (str_join "," (c0' :: c1 :: rest))
  | _ => None
  end.

(** Lines 126-130: the rewrite, when the header pattern matches the
    lower-cased line. *)
Definition rewrite_stage (line : string) : option string :=
  if re_frame_header_search (str_lower line)
  then rewrite_frame_header line
  else Some line.

(** Lines 126-131, one retained line: the rewrite, then the removal of the
    first quote. *)
Definition reformat_line (line : string) : option string :=
  match rewrite_stage line with
  | Some l => Some (str_remove_first dquote_char l)
  | None => None
  end.

(** Lines 120-133: the loop over the formatted traceback. A line that
    contains the routine's name is skipped; [None] is the IndexError of a
    rewrite, which ends the loop. *)
Fixpoint reformat_traceback (lines : list string) : option (list string) :=
  match lines with
  | [] => Some []
  | line :: rest =>
      if str_contains execute_code_name line then reformat_traceback rest
      else
        match reformat_line line with
        | None => None
        | Some l =>
            match reformat_traceback rest with
            | None => None
            | Some ls => Some (l :: ls)
            end
        end
  end.

(** The lines of a formatted traceback that the loop does not skip. *)
Definition kept_lines (lines : list string) : list string :=
  filter (λ line, str_contains execute_code_name line = false) lines.

(** The string that [traceback.format_exception] yields for one frame: the
    header and the source line. *)
Definition traceback_frame (path lineno scope source_line : string) : string :=
  "  File " +:+ dq +:+ path +:+ dq +:+ ", line " +:+ lineno +:+ ", in " +:+ scope +:+ nl
  +:+ "    " +:+ source_line +:+ nl.

(** The header alone, followed by any text. *)
Definition frame_header (path lineno rest : string) : string :=
  "  File " +:+ dq +:+ path +:+ dq +:+ ", line " +:+ lineno +:+ ", in " +:+ rest.

(** Number of occurrences of a character. *)
Fixpoint str_count (c : ascii) (s : string) : nat :=
  match s with
  | EmptyString => 0
  | String a s' => (if char_eqb a c then 1 else 0) + str_count c s'
  end.

(** Every character of [s] satisfies [p]. *)
Fixpoint str_forall (p : ascii → bool) (s : string) : bool :=
  match s with
  | EmptyString => true
  | String a s' => p a && str_forall p s'
  end.

(** Line 135 *)
Definition traceback_message (traceback_lines : list string) : string :=
  str_strip (str_concat traceback_lines).

(** ** Values, exceptions and the host *)

(** The objects a namespace binds. The bridge itself binds strings, [True]
    and the builtins module; the rest is what user scripts bind. *)
Inductive value :=
| VNone
| VBool (b : bool)
| VInt (z : Z)
| VStr (s : string)
| VBuiltins
| VModule (name : string)
| VObject (id : nat).

(** The class of an exception: [SystemExit], [KeyboardInterrupt] and
    [GeneratorExit] derive from [BaseException] only; everything a script
    usually raises derives from [Exception]. *)
Inductive exn_class :=
| SystemExit
| KeyboardInterrupt
| GeneratorExit
| OtherBaseException (name : string)
| ExceptionSubclass (name : string).

(** [isinstance(e, Exception)], the test of [except Exception]. *)
Definition isinstance_Exception (c : exn_class) : bool :=
  match c with
  | ExceptionSubclass _ => true
  | _ => false
  end.

(** What [traceback.format_exception] does with an exception object in the
    handler of [execute_code]: it returns the list of strings (the heading,
    one string per frame, the routine's own frame first, and the lines of
    the exception itself), or it raises an exception of its own. *)
Inductive format_result (E : Type) :=
| Formatted (lines : list string)
| FormatRaises (e : E).

Arguments Formatted {E} lines.
Arguments FormatRaises {E} e.

(** An exception object: its class, and what formatting it gives. *)
Inductive exn := {
  exn_class_of : exn_class;
  exn_format : format_result exn
}.

(** An exception raised by [compile]: the interpreter builds it, and
    [traceback.format_exception] returns its lines. *)
Record compile_error := {
  ce_class : exn_class;
  ce_formatted : list string
}.

(** The exception object of a compile error. *)
Definition compile_exn (ce : compile_error) : exn :=
  {| exn_class_of := ce_class ce; exn_format := Formatted (ce_formatted ce) |}.

Inductive outcome :=
| Returned
| Raised (e : exn).

(** A callable that may sit in [unreal.log], [unreal.log_error] or
    [unreal.log_warning], by identity: the three functions of the host, the
    bound methods of a redirection object, or anything else a script put
    there. *)
Inductive callable :=
| host_log
| host_log_error
| host_log_warning
| redirect (self : nat)
| redirect_error (self : nat)
| redirect_warning (self : nat)
| other_callable (id : nat).

(** A message that reached a channel: the host's three channels, standard
    output ([print]), the logger named Unreal, or another callable. *)
Inductive output :=
| HostLog (msg : string)
| HostLogError (msg : string)
| HostLogWarning (msg : string)
| Stdout (msg : string)
| LoggerError (msg : string)
| LoggerWarning (msg : string)
| OtherCall (id : nat) (msg : string).

(** A file: its text, or the exception that reading it raises (for instance
    a UnicodeDecodeError). A path with no file raises FileNotFoundError when
    it is opened. *)
Inductive file :=
| file_text (content : string)
| file_unreadable (e : exn).

(** What the host process holds besides the namespace. *)
Record host := {
  unreal_log : callable;
  unreal_log_error : callable;
  unreal_log_warning : callable;
  outputs : list output;
  files : gmap string file;
  next_object : nat
}.

(** The state: the module global [__VsCodeVariables__], unbound ([None]) or
    bound to the one namespace dictionary, and the host. The dictionary is a
    single object: every reference to it reads and writes this cell. *)
Record state := {
  vscode_variables : option (gmap string value);
  the_host : host
}.

Definition set_host (h : host) (st : state) : state :=
  {| vscode_variables := vscode_variables st; the_host := h |}.

Definition set_handlers (l e w : callable) (h : host) : host :=
  {| unreal_log := l; unreal_log_error := e; unreal_log_warning := w;
     outputs := outputs h; files := files h; next_object := next_object h |}.

Definition add_output (o : output) (h : host) : host :=
  {| unreal_log := unreal_log h; unreal_log_error := unreal_log_error h;
     unreal_log_warning := unreal_log_warning h;
     outputs := outputs h ++ [o]; files := files h;
     next_object := next_object h |}.

(** What calling [f(msg)] sends, and where. The callables are sinks: a call
    records its message and returns. *)
Definition emit (f : callable) (msg : string) : output :=
  match f with
  | host_log => HostLog msg
  | host_log_error => HostLogError msg
  | host_log_warning => HostLogWarning msg
  | redirect _ => Stdout msg
  | redirect_error _ => LoggerError msg
  | redirect_warning _ => LoggerWarning msg
  | other_callable id => OtherCall id msg
  end.

Definition call (f : callable) (msg : string) (h : host) : host :=
  add_output (emit f msg) h.

(** ** The shared namespace (lines 106-111) *)

(** The dictionary literal of line 109. *)
Definition new_exec_globals : gmap string value :=
  <["__builtins__" := VBuiltins]> (<["__IsVsCodeExec__" := VBool true]> ∅).

(** [get_exec_globals()]: binds the module global when it is not bound yet.
    The reference it returns is the cell itself; [exec_globals] reads the
    dictionary through it and [update_exec_globals] writes. *)
Definition get_exec_globals (st : state) : state :=
  match vscode_variables st with
  | Some _ => st
  | None => {| vscode_variables := Some new_exec_globals; the_host := the_host st |}
  end.

Definition exec_globals (st : state) : gmap string value :=
  match vscode_variables st with
  | Some ns => ns
  | None => ∅
  end.

Definition update_exec_globals (f : gmap string value → gmap string value)
    (st : state) : state :=
  {| vscode_variables := f <$> vscode_variables st; the_host := the_host st |}.

(** ** The logging-redirection shim (lines 79-103) *)

Record UnrealLogRedirectDebugging := {
  self_id : nat;
  original_log : callable;
  original_log_error : callable;
  original_log_warning : callable
}.

(** [__init__]: a new object that remembers the three current handlers. *)
Definition UnrealLogRedirectDebugging_init (h : host)
    : UnrealLogRedirectDebugging * host :=
  ({| self_id := next_object h;
      original_log := unreal_log h;
      original_log_error := unreal_log_error h;
      original_log_warning := unreal_log_warning h |},
   {| unreal_log := unreal_log h; unreal_log_error := unreal_log_error h;
      unreal_log_warning := unreal_log_warning h;
      outputs := outputs h; files := files h;
      next_object := S (next_object h) |}).

Definition UnrealLogRedirectDebugging_enter (self : UnrealLogRedirectDebugging)
    (h : host) : host :=
  set_handlers (redirect (self_id self)) (redirect_error (self_id self))
    (redirect_warning (self_id self)) h.

Definition UnrealLogRedirectDebugging_exit (self : UnrealLogRedirectDebugging)
    (h : host) : host :=
  set_handlers (original_log self) (original_log_error self)
    (original_log_warning self) h.

(** [with UnrealLogRedirectDebugging(): body]. [__exit__] returns [None], so
    an exception of the body goes on to the caller after the handlers are
    put back. *)
Definition with_UnrealLogRedirectDebugging (body : state → outcome * state)
    (st : state) : outcome * state :=
  let '(self, h1) := UnrealLogRedirectDebugging_init (the_host st) in
  let st2 := set_host (UnrealLogRedirectDebugging_enter self h1) st in
  let '(o, st3) := body st2 in
  (o, set_host (UnrealLogRedirectDebugging_exit self (the_host st3)) st3).

(** The state in which the body of the block starts. *)
Definition entered (st : state) : state :=
  set_host
    (UnrealLogRedirectDebugging_enter
       (fst (UnrealLogRedirectDebugging_init (the_host st)))
       (snd (UnrealLogRedirectDebugging_init (the_host st)))) st.

(** The object of the block. *)
Definition block_object (st : state) : UnrealLogRedirectDebugging :=
  fst (UnrealLogRedirectDebugging_init (the_host st)).

(** ** Files *)

Definition FileNotFoundError : exn :=
  {| exn_class_of := ExceptionSubclass "FileNotFoundError"; exn_format := Formatted [] |}.

Definition IndexError : exn :=
  {| exn_class_of := ExceptionSubclass "IndexError"; exn_format := Formatted [] |}.

(** [open(path, 'r', encoding='utf-8')] *)
Definition open_file (fs : gmap string file) (path : string) : exn + file :=
  match fs !! path with
  | Some f => inr f
  | None => inl FileNotFoundError
  end.

(** [f.read()] *)
Definition read_file (f : file) : exn + string :=
  match f with
  | file_text content => inr content
  | file_unreadable e => inl e
  end.

(** ** [execute_code] and [main] *)

Section Interpreter.

(** The Python built-ins and the platform: what [compile(code, filename,
    'exec')] returns or raises, what [exec] of a code object does to the
    namespace and the host and how it ends, the system's temporary directory
    and [os.path.join]. *)
Variable code_object : Type.
Variable py_compile : string → string → compile_error + code_object.
Variable py_exec :
  code_object → gmap string value → host → outcome * gmap string value * host.
Variable tempdir : string.
Variable os_path_join : string → string → string.

(** Lines 20-21 *)
Definition TEMP_FOLDERPATH : string := os_path_join tempdir "VSCode-Unreal-Python".
Definition OUTPUT_FILENAME : string := "exec-out".

(** [exec(co, get_exec_globals())]: the script runs on the shared dictionary
    and what it leaves there is in the same dictionary afterwards. *)
Definition exec_shared (co : code_object) (st : state) : outcome * state :=
  let st1 := get_exec_globals st in
  let '(o, ns', h') := py_exec co (exec_globals st1) (the_host st1) in
  (o, {| vscode_variables := Some ns'; the_host := h' |}).

(** Line 116, the body of the [try]: [compile] is evaluated first. *)
Definition try_body (code filename : string) (st : state) : outcome * state :=
  match py_compile code filename with
  | inl e => (Raised (compile_exn e), st)
  | inr co => exec_shared co st
  end.

(** Lines 117-137, the handler of [except Exception]. An exception raised
    in the handler, by [traceback.format_exception] on line 121 or by the
    loop, leaves [execute_code]. *)
Definition handler (e : exn) (st : state) : outcome * state :=
  match exn_format e with
  | FormatRaises e' => (Raised e', st)
  | Formatted lines =>
      match reformat_traceback lines with
      | Some traceback_lines =>
          let traceback_message := traceback_message traceback_lines in
          (Returned,
           set_host (call (unreal_log_error (the_host st)) traceback_message
                       (the_host st)) st)
      | None => (Raised IndexError, st)
      end
  end.

Definition execute_code (code filename : string) (is_vscode_debugging : bool)
    (st : state) : outcome * state :=
  match try_body code filename st with
  | (Returned, st') => (Returned, st')
  | (Raised e, st') =>
      if isinstance_Exception (exn_class_of e) then handler e st'
      else (Raised e, st')
  end.

(** Truth value of the [name_var] argument: [None] and the empty string are
    false. *)
Definition truthy (name_var : option string) : bool :=
  match name_var with
  | Some (String _ _) => true
  | _ => false
  end.

(** The object that [name_var] is. *)
Definition name_var_value (name_var : option string) : value :=
  match name_var with
  | Some n => VStr n
  | None => VNone
  end.

(** Lines 144-148 on the dictionary. *)
Definition setup_namespace (exec_origin : string) (name_var : option string)
    (exec_globals : gmap string value) : gmap string value :=
  let exec_globals := <["__file__" := VStr exec_origin]> exec_globals in
  if truthy name_var then
    <["__name__" := name_var_value name_var]> exec_globals
  else
    match exec_globals !! "__name__" with
    | Some _ => delete "__name__" exec_globals
    | None => exec_globals
    end.

(** Lines 142-148 *)
Definition main_setup (exec_origin : string) (name_var : option string)
    (st : state) : state :=
  update_exec_globals (setup_namespace exec_origin name_var) (get_exec_globals st).

(** Line 150 *)
Definition output_filepath (command_id : string) : string :=
  os_path_join TEMP_FOLDERPATH (OUTPUT_FILENAME +:+ "-" +:+ command_id +:+ ".json").

(** [execute_code(vscode_in_file.read(), exec_origin, is_debugging)]: the
    argument is evaluated first. *)
Definition read_and_execute (vscode_in_file : file) (exec_origin : string)
    (is_debugging : bool) (st : state) : outcome * state :=
  match read_file vscode_in_file with
  | inl e => (Raised e, st)
  | inr text => execute_code text exec_origin is_debugging st
  end.

Definition main (exec_file exec_origin command_id : string) (is_debugging : bool)
    (name_var : option string) (st : state) : outcome * state :=
  let st := main_setup exec_origin name_var st in
  let output_filepath := output_filepath command_id in
  match open_file (files (the_host st)) exec_file with
  | inl e => (Raised e, st)
  | inr vscode_in_file =>
      if negb is_debugging then
        read_and_execute vscode_in_file exec_origin is_debugging st
      else
        with_UnrealLogRedirectDebugging
          (read_and_execute vscode_in_file exec_origin is_debugging) st
  end.

End Interpreter.

(** ** Mini: the scripts of the examples

    A table of a few source texts with the behaviour CPython gives them. It
    stands for the interpreter on these texts only; a text outside the table
    is refused the way a syntax error is. A frame is the header and, when
    the file of the script can be read, its source line; the caret line that
    CPython 3.11 puts under a frame whose error spans a part of the line
    belongs to no frame of the examples. *)

Module Mini.

Inductive script :=
| Pass
| Assign (name : string) (v : value)
| CopyName (target source : string)
| Raise (c : exn_class) (class_name : string) (message : string)
| ImportUnrealLogError (msg : string).

(** A compiled text: the file name given to [compile], the text and its
    meaning. *)
Record code := {
  co_filename : string;
  co_source : string;
  co_script : script
}.

Definition quoted (s : string) : string := dq +:+ s +:+ dq.

(** The source texts. *)
Definition src_pass : string := "pass".
Definition src_x_is_1 : string := "x = 1".
Definition src_y_is_x : string := "y = x".
Definition src_bind_name : string := "__name__ = 'mine'".
Definition src_system_exit : string := "raise SystemExit".
Definition src_keyboard_interrupt : string := "raise KeyboardInterrupt".
Definition src_value_error : string := "raise ValueError('boom')".
Definition src_log_error : string :=
  "import unreal" +:+ nl +:+ "unreal.log_error('boom')".

Definition table : list (string * script) :=
  [ (src_pass, Pass);
    (src_x_is_1, Assign "x" (VInt 1));
    (src_y_is_x, CopyName "y" "x");
    (src_bind_name, Assign "__name__" (VStr "mine"));
    (src_system_exit, Raise SystemExit "SystemExit" EmptyString);
    (src_keyboard_interrupt, Raise KeyboardInterrupt "KeyboardInterrupt" EmptyString);
    (src_value_error, Raise (ExceptionSubclass "ValueError") "ValueError" "boom");
    (src_log_error, ImportUnrealLogError "boom") ].

Fixpoint lookup_script (text : string) (t : list (string * script)) : option script :=
  match t with
  | [] => None
  | (src, s) :: t' => if String.eqb text src then Some s else lookup_script text t'
  end.

(** The strings of [traceback.format_exception]. *)
Definition heading : string := "Traceback (most recent call last):" +:+ nl.

Definition frame := traceback_frame.

(** The frame of the routine itself: line 116 of the bridge. *)
Definition routine_frame : string :=
  frame "C:/UE/Plugins/vscode_execute.py" "116" "execute_code"
    ("exec(compile(code, filename, " +:+ quoted "exec" +:+ "), get_exec_globals())").

Definition final_line (class_name message : string) : string :=
  match message with
  | EmptyString => class_name +:+ nl
  | _ => class_name +:+ ": " +:+ message +:+ nl
  end.

(** The first line of a text. *)
Definition first_line (text : string) : string :=
  match str_partition newline_char text with
  | Some (before, _) => before
  | None => text
  end.

(** [linecache.getline(filename, 1)], stripped, as the traceback shows it:
    the line comes from the file that is called [filename] when the
    traceback is formatted, and there is none when the file cannot be read
    or the line is blank. *)
Definition source_line (h : host) (filename : string) : option string :=
  match files h !! filename with
  | Some (file_text content) =>
      match str_strip (first_line content) with
      | EmptyString => None
      | line => Some line
      end
  | _ => None
  end.

(** The string of a frame of the script, at line 1 of its module. *)
Definition script_frame (h : host) (filename : string) : string :=
  match source_line h filename with
  | Some line => frame filename "1" "<module>" line
  | None => frame_header filename "1" ("<module>" +:+ nl)
  end.

(** The exception a script raises at its line 1, when [h] is the host at
    the time the traceback is formatted. *)
Definition raised (c : exn_class) (class_name message : string) (co : code)
    (h : host) : exn :=
  {| exn_class_of := c;
     exn_format :=
       Formatted
         [ heading; routine_frame;
           script_frame h (co_filename co);
           final_line class_name message ] |}.

(** The texts that are no Python, with the column of the error. *)
Definition syntax_errors : list (string * nat) := [ ("x = = 1", 5) ].

Fixpoint lookup_offset (text : string) (t : list (string * nat)) : nat :=
  match t with
  | [] => 1
  | (src, offset) :: t' => if String.eqb text src then offset else lookup_offset text t'
  end.

Fixpoint spaces (n : nat) : string :=
  match n with
  | O => EmptyString
  | S n' => String " " (spaces n')
  end.

(** A syntax error on line 1: the location, the text, the caret under the
    column of the error and the message are four strings. A text that is in
    neither table has its caret under the first column. *)
Definition SyntaxError (text filename : string) : compile_error :=
  {| ce_class := ExceptionSubclass "SyntaxError";
     ce_formatted :=
       [ heading; routine_frame;
         "  File " +:+ quoted filename +:+ ", line 1" +:+ nl;
         "    " +:+ text +:+ nl;
         "    " +:+ spaces (lookup_offset text syntax_errors - 1) +:+ "^" +:+ nl;
         "SyntaxError: invalid syntax" +:+ nl ] |}.

Definition compile (text filename : string) : compile_error + code :=
  match lookup_script text table with
  | Some s => inr {| co_filename := filename; co_source := text; co_script := s |}
  | None => inl (SyntaxError text filename)
  end.

Definition exec (co : code) (ns : gmap string value) (h : host)
    : outcome * gmap string value * host :=
  match co_script co with
  | Pass => (Returned, ns, h)
  | Assign name v => (Returned, <[name := v]> ns, h)
  | CopyName target source =>
      match ns !! source with
      | Some v => (Returned, <[target := v]> ns, h)
      | None =>
          (Raised (raised (ExceptionSubclass "NameError") "NameError"
                     ("name '" +:+ source +:+ "' is not defined") co h), ns, h)
      end
  | Raise c class_name message => (Raised (raised c class_name message co h), ns, h)
  | ImportUnrealLogError msg =>
      (Returned, <["unreal" := VModule "unreal"]> ns, call (unreal_log_error h) msg h)
  end.

Definition tempdir : string := "C:/Temp".

Definition path_join (a b : string) : string := a +:+ "/" +:+ b.

Definition execute_code := execute_code code compile exec.
Definition main := main code compile exec tempdir path_join.

(** A fresh host process: the host's own handlers, nothing sent, the
    scripts that the editor wrote to the temporary directory, and one of
    the files they were taken from. *)
Definition tmp (name : string) : string := "C:/Temp/VSCode-Unreal-Python/" +:+ name.

Definition host0 : host :=
  {| unreal_log := host_log;
     unreal_log_error := host_log_error;
     unreal_log_warning := host_log_warning;
     outputs := [];
     files :=
       list_to_map
         [ (tmp "pass.py", file_text src_pass);
           (tmp "x.py", file_text src_x_is_1);
           (tmp "y.py", file_text src_y_is_x);
           (tmp "name.py", file_text src_bind_name);
           (tmp "exit.py", file_text src_system_exit);
           (tmp "interrupt.py", file_text src_keyboard_interrupt);
           (tmp "boom.py", file_text src_value_error);
           (tmp "log.py", file_text src_log_error);
           (tmp "binary.py",
            file_unreadable {| exn_class_of := ExceptionSubclass "UnicodeDecodeError";
                               exn_format := Formatted [] |});
           ("C:/proj/boom.py", file_text src_value_error) ];
     next_object := 0 |}.

Definition st0 : state := {| vscode_variables := None; the_host := host0 |}.

(** The same process once the dictionary is bound. *)
Definition st_bound : state :=
  {| vscode_variables := Some new_exec_globals; the_host := host0 |}.

Definition demo : string := "C:/proj/demo.py".

Definition compiled (text filename : string) (s : script) : code :=
  {| co_filename := filename; co_source := text; co_script := s |}.


Definition keyboard_interrupt : exn :=
  raised KeyboardInterrupt "KeyboardInterrupt" EmptyString
    (compiled src_keyboard_interrupt demo
       (Raise KeyboardInterrupt "KeyboardInterrupt" EmptyString)) host0.

Definition value_error : exn :=
  raised (ExceptionSubclass "ValueError") "ValueError" "boom"
    (compiled src_value_error demo
       (Raise (ExceptionSubclass "ValueError") "ValueError" "boom")) host0.

Definition name_error : exn :=
  raised (ExceptionSubclass "NameError") "NameError" "name 'x' is not defined"
    (compiled src_y_is_x demo (CopyName "y" "x")) host0.

(** The lines of an exception that is formatted. *)
Definition formatted_lines (e : exn) : list string :=
  match exn_format e with
  | Formatted lines => lines
  | FormatRaises _ => []
  end.

Definition unicode_decode_error : exn :=
  {| exn_class_of := ExceptionSubclass "UnicodeDecodeError"; exn_format := Formatted [] |}.

(** The state after a first call of [main] on three of the scripts. *)
Definition st_after_x : state :=
  snd (main (tmp "x.py") "C:/proj/x.py" "1" false None st0).

Definition st_after_name : state :=
  snd (main (tmp "name.py") "C:/proj/name.py" "1" false None st0).

Definition st_after_main_name : state :=
  snd (main (tmp "pass.py") "C:/proj/pass.py" "1" false (Some "__main__") st0).

(** A line of an exception whose message holds quotes, and a frame header
    whose path holds a comma. *)
Definition quoted_message_line : string :=
  "ValueError: a " +:+ quoted "b" +:+ " c" +:+ nl.

Definition comma_header : string :=
  frame_header "C:/a,b.py" "3" ("<module>" +:+ nl).

Definition demo_header : string :=
  frame_header demo "3" ("<module>" +:+ nl).

End Mini.

(** ** Rebind: one more script of the examples

    The script imports the host module and puts the built-in [print] in
    [unreal.log]. A text other than this one is refused. *)

Module Rebind.

Definition src : string := "import unreal" +:+ nl +:+ "unreal.log = print".

(** The built-in [print], as a callable. *)
Definition print_builtin : callable := other_callable 0.

Definition compile (text filename : string) : compile_error + unit :=
  if String.eqb text src then inr tt else inl (Mini.SyntaxError text filename).

Definition exec (co : unit) (ns : gmap string value) (h : host)
    : outcome * gmap string value * host :=
  (Returned, <["unreal" := VModule "unreal"]> ns,
   set_handlers print_builtin (unreal_log_error h) (unreal_log_warning h) h).

Definition main := main unit compile exec Mini.tempdir Mini.path_join.

Definition host0 : host :=
  {| unreal_log := host_log;
     unreal_log_error := host_log_error;
     unreal_log_warning := host_log_warning;
     outputs := [];
     files := {[ Mini.tmp "rebind.py" := file_text src ]};
     next_object := 0 |}.

Definition st0 : state := {| vscode_variables := None; the_host := host0 |}.

End Rebind.

(** ** Illformed: a script whose exception cannot be formatted

    The script raises a [SyntaxError] built by hand, whose text is the
    number 5: [traceback.format_exception] calls a string method on that
    text and raises an [AttributeError]. A text other than this one is
    refused. *)

Module Illformed.

Definition src : string := "raise SyntaxError('m', ('f.py', 1, 1, 5))".

(** The exception that the formatting raises; nothing formats it in turn. *)
Definition attribute_error : exn :=
  {| exn_class_of := ExceptionSubclass "AttributeError"; exn_format := Formatted [] |}.

Definition syntax_error : exn :=
  {| exn_class_of := ExceptionSubclass "SyntaxError";
     exn_format := FormatRaises attribute_error |}.

Definition compile (text filename : string) : compile_error + unit :=
  if String.eqb text src then inr tt else inl (Mini.SyntaxError text filename).

Definition exec (co : unit) (ns : gmap string value) (h : host)
    : outcome * gmap string value * host :=
  (Raised syntax_error, ns, h).

Definition execute_code := execute_code unit compile exec.
Definition main := main unit compile exec Mini.tempdir Mini.path_join.

Definition host0 : host :=
  {| unreal_log := host_log;
     unreal_log_error := host_log_error;
     unreal_log_warning := host_log_warning;
     outputs := [];
     files := {[ Mini.tmp "illformed.py" := file_text src ]};
     next_object := 0 |}.

Definition st0 : state := {| vscode_variables := None; the_host := host0 |}.

Definition st_bound : state :=
  {| vscode_variables := Some new_exec_globals; the_host := host0 |}.

End Illformed.


(** * Properties *)

(** ** Strings *)

Lemma append_cons c s t : String c s +:+ t = String c (s +:+ t).
Proof. reflexivity. Qed.

Lemma append_nil_l s : EmptyString +:+ s = s.
Proof. reflexivity. Qed.

Lemma append_nil_r s : s +:+ EmptyString = s.
Proof. induction s as [|c s IH]; [reflexivity|]. rewrite append_cons, IH. reflexivity. Qed.

Lemma append_assoc s t u : (s +:+ t) +:+ u = s +:+ (t +:+ u).
Proof.
  induction s as [|c s IH]; [reflexivity|].
  rewrite !append_cons, IH. reflexivity.
Qed.

Lemma char_eqb_eq a b : char_eqb a b = true ↔ a = b.
Proof. apply Ascii.eqb_eq. Qed.

Lemma char_eqb_refl a : char_eqb a a = true.
Proof. apply Ascii.eqb_refl. Qed.

Lemma str_startswith_app p s : str_startswith p (p +:+ s) = true.
Proof.
  induction p as [|c p IH]; [reflexivity|].
  rewrite append_cons. simpl. rewrite char_eqb_refl. exact IH.
Qed.

Lemma str_startswith_inv p s :
  str_startswith p s = true → ∃ r, s = p +:+ r.
Proof.
  revert s. induction p as [|c p IH]; intros s H.
  - exists s. reflexivity.
  - destruct s as [|b s]; [discriminate|]. simpl in H.
    apply andb_true_iff in H as [Hc Hp]. apply char_eqb_eq in Hc as ->.
    destruct (IH _ Hp) as [r ->]. exists r. reflexivity.
Qed.

Lemma str_contains_startswith p s :
  str_startswith p s = true → str_contains p s = true.
Proof. intros H. destruct s; simpl; rewrite H; reflexivity. Qed.

Lemma str_contains_app needle pre post :
  str_contains needle (pre +:+ needle +:+ post) = true.
Proof.
  induction pre as [|c pre IH].
  - rewrite append_nil_l. apply str_contains_startswith, str_startswith_app.
  - rewrite append_cons. simpl. rewrite IH. apply orb_true_r.
Qed.

Lemma str_count_app c s t : str_count c (s +:+ t) = str_count c s + str_count c t.
Proof.
  induction s as [|a s IH]; [reflexivity|].
  rewrite append_cons. simpl. rewrite IH. lia.
Qed.

Lemma str_drop_app p s : str_drop (String.length p) (p +:+ s) = s.
Proof. induction p as [|c p IH]; [reflexivity|]. rewrite append_cons. exact IH. Qed.

Lemma char_lower_comma c : char_eqb (char_lower c) comma_char = char_eqb c comma_char.
Proof. destruct c as [[] [] [] [] [] [] [] []]; reflexivity. Qed.

Lemma str_count_lower s : str_count comma_char (str_lower s) = str_count comma_char s.
Proof.
  induction s as [|c s IH]; [reflexivity|].
  simpl. rewrite char_lower_comma, IH. reflexivity.
Qed.

Lemma re_skip_digits_count s :
  str_count comma_char (re_skip_digits s) ≤ str_count comma_char s.
Proof.
  induction s as [|c s IH]; [reflexivity|].
  simpl. destruct (char_re_digit c); simpl; lia.
Qed.

(** A match of the header pattern holds two commas. *)
Lemma re_match_tail_commas s :
  re_match_tail s = true → 2 ≤ str_count comma_char s.
Proof.
  unfold re_match_tail. intros H. apply andb_true_iff in H as [H1 H2].
  apply str_startswith_inv in H1 as [r ->].
  rewrite str_drop_app in H2. apply str_startswith_inv in H2 as [r' Hr'].
  pose proof (re_skip_digits_count r) as Hle. rewrite Hr' in Hle.
  rewrite str_count_app in *. simpl in *. vm_compute (str_count comma_char re_close).
  vm_compute (str_count comma_char re_in) in Hle. lia.
Qed.

Lemma re_match_body_cons c s :
  re_match_body (String c s)
  = re_match_tail (String c s) || (negb (char_eqb c newline_char) && re_match_body s).
Proof. reflexivity. Qed.

Lemma re_frame_header_search_cons c s :
  re_frame_header_search (String c s)
  = re_match_here (String c s) || re_frame_header_search s.
Proof. reflexivity. Qed.

Lemma re_match_body_commas s :
  re_match_body s = true → 2 ≤ str_count comma_char s.
Proof.
  induction s as [|c s IH]; intros H.
  - vm_compute in H. discriminate.
  - rewrite re_match_body_cons in H. apply orb_true_iff in H as [H|H].
    + apply re_match_tail_commas in H. exact H.
    + apply andb_true_iff in H as [_ H]. apply IH in H. simpl. lia.
Qed.

Lemma str_drop_count n s : str_count comma_char (str_drop n s) ≤ str_count comma_char s.
Proof.
  revert s. induction n as [|n IH]; intros s; [reflexivity|].
  destruct s as [|c s]; [reflexivity|]. simpl. specialize (IH s). lia.
Qed.

Lemma re_frame_header_search_commas s :
  re_frame_header_search s = true → 2 ≤ str_count comma_char s.
Proof.
  induction s as [|c s IH]; intros H.
  - vm_compute in H. discriminate.
  - rewrite re_frame_header_search_cons in H. apply orb_true_iff in H as [H|H].
    + unfold re_match_here in H. apply andb_true_iff in H as [_ H].
      apply re_match_body_commas in H.
      pose proof (str_drop_count (String.length re_open) (String c s)) as Hle.
      lia.
    + apply IH in H. simpl. lia.
Qed.

Lemma str_partition_count sep s :
  1 ≤ str_count sep s →
  ∃ before after, str_partition sep s = Some (before, after)
    ∧ str_count sep s = S (str_count sep after)
    ∧ s = before +:+ String sep after.
Proof.
  induction s as [|c s IH]; simpl; intros H; [lia|].
  destruct (char_eqb c sep) eqn:E.
  - apply char_eqb_eq in E as ->. eauto.
  - destruct IH as (b & a & -> & Hc & Hs); [lia|].
    exists (String c b), a. rewrite append_cons, <- Hs. auto.
Qed.

(** A line with two commas is cut in three, and the three parts with the
    two commas are the line. *)
Lemma str_split_two sep s :
  2 ≤ str_count sep s →
  ∃ c0 c1 c2, str_split sep 2 s = [c0; c1; c2]
    ∧ s = c0 +:+ String sep (c1 +:+ String sep c2).
Proof.
  intros H. simpl.
  destruct (str_partition_count sep s) as (b & a & -> & Hc & ->); [lia|].
  destruct (str_partition_count sep a) as (b' & a' & -> & Hc' & ->); [lia|].
  eauto.
Qed.

(** [components[1]] exists whenever the header pattern matched: the rewrite
    raises no IndexError. *)
Lemma rewrite_stage_total line : ∃ l, rewrite_stage line = Some l.
Proof.
  unfold rewrite_stage.
  destruct (re_frame_header_search (str_lower line)) eqn:Hre; [|eauto].
  apply re_frame_header_search_commas in Hre. rewrite str_count_lower in Hre.
  destruct (str_split_two comma_char line Hre) as (c0 & c1 & c2 & Hs & _).
  unfold rewrite_frame_header. rewrite Hs. eauto.
Qed.

Lemma reformat_line_total line : ∃ l, reformat_line line = Some l.
Proof.
  unfold reformat_line. destruct (rewrite_stage_total line) as [l ->]. eauto.
Qed.

(** The loop ends normally, and its result is the reformatting of the kept
    lines, in order. *)
Lemma reformat_traceback_kept lines :
  ∃ traceback_lines,
    reformat_traceback lines = Some traceback_lines
    ∧ Forall2 (λ line l, reformat_line line = Some l) (kept_lines lines) traceback_lines.
Proof.
  induction lines as [|line rest (ls & Hls & Hall)]; simpl.
  - exists []. split; [reflexivity|constructor].
  - unfold kept_lines in *. rewrite filter_cons.
    destruct (str_contains execute_code_name line) eqn:Hc.
    + rewrite decide_False by congruence. eauto.
    + rewrite decide_True by reflexivity.
      destruct (reformat_line_total line) as [l Hl]. rewrite Hl, Hls.
      exists (l :: ls). split; [reflexivity|]. constructor; assumption.
Qed.

(** ** The frame-header rewrite *)

Lemma str_remove_first_absent c s :
  str_count c s = 0 → str_remove_first c s = s.
Proof.
  induction s as [|a s IH]; [reflexivity|]. simpl.
  destruct (char_eqb a c); simpl; [lia|]. intros H. rewrite IH by lia. reflexivity.
Qed.

Lemma str_remove_first_app c pre post :
  str_count c pre = 0 →
  str_remove_first c (pre +:+ String c post) = pre +:+ post.
Proof.
  induction pre as [|a pre IH]; intros H.
  - rewrite !append_nil_l. simpl. rewrite char_eqb_refl. reflexivity.
  - rewrite !append_cons. simpl in *.
    destruct (char_eqb a c); [lia|]. rewrite IH by lia. reflexivity.
Qed.

Lemma str_partition_app sep a b :
  str_count sep a = 0 →
  str_partition sep (a +:+ String sep b) = Some (a, b).
Proof.
  induction a as [|c a IH]; intros H.
  - rewrite append_nil_l. simpl. rewrite char_eqb_refl. reflexivity.
  - rewrite append_cons. simpl in *.
    destruct (char_eqb c sep); [lia|]. rewrite IH by lia. reflexivity.
Qed.

Lemma str_drop_last_app s c : str_drop_last (s +:+ String c EmptyString) = s.
Proof.
  induction s as [|a s IH]; [reflexivity|].
  rewrite append_cons. simpl. rewrite IH.
  destruct s; reflexivity.
Qed.

Lemma str_lower_app s t : str_lower (s +:+ t) = str_lower s +:+ str_lower t.
Proof.
  induction s as [|c s IH]; [reflexivity|].
  rewrite append_cons. simpl. rewrite IH. reflexivity.
Qed.

Lemma str_digits_app s t : str_digits (s +:+ t) = str_digits s +:+ str_digits t.
Proof.
  induction s as [|c s IH]; [reflexivity|].
  rewrite append_cons. simpl. destruct (char_isdigit c); rewrite IH; reflexivity.
Qed.

(** What a decimal digit is to the other character tests. *)
Lemma char_re_digit_facts c :
  char_re_digit c = true →
  char_isdigit c = true ∧ char_lower c = c ∧ char_eqb c comma_char = false.
Proof. destruct c as [[] [] [] [] [] [] [] []]; vm_compute; intros H; try discriminate H; auto. Qed.

Lemma digits_str_digits s : str_forall char_re_digit s = true → str_digits s = s.
Proof.
  induction s as [|c s IH]; [reflexivity|]. simpl. intros H.
  apply andb_true_iff in H as [Hc Hs].
  destruct (char_re_digit_facts c Hc) as (-> & _). rewrite IH by exact Hs. reflexivity.
Qed.

Lemma digits_str_lower s : str_forall char_re_digit s = true → str_lower s = s.
Proof.
  induction s as [|c s IH]; [reflexivity|]. simpl. intros H.
  apply andb_true_iff in H as [Hc Hs].
  destruct (char_re_digit_facts c Hc) as (_ & -> & _). rewrite IH by exact Hs. reflexivity.
Qed.

Lemma digits_no_comma s : str_forall char_re_digit s = true → str_count comma_char s = 0.
Proof.
  induction s as [|c s IH]; [reflexivity|]. simpl. intros H.
  apply andb_true_iff in H as [Hc Hs].
  destruct (char_re_digit_facts c Hc) as (_ & _ & ->). rewrite IH by exact Hs. reflexivity.
Qed.

Lemma re_skip_digits_app s t :
  str_forall char_re_digit s = true → re_skip_digits (s +:+ t) = re_skip_digits t.
Proof.
  induction s as [|c s IH]; [reflexivity|]. simpl. intros H.
  apply andb_true_iff in H as [Hc Hs].
  rewrite Hc. apply IH, Hs.
Qed.

Lemma char_lower_newline c :
  char_eqb (char_lower c) newline_char = char_eqb c newline_char.
Proof. destruct c as [[] [] [] [] [] [] [] []]; reflexivity. Qed.

Lemma re_match_body_app p t :
  str_count newline_char p = 0 → re_match_tail t = true →
  re_match_body (str_lower p +:+ t) = true.
Proof.
  induction p as [|c p IH]; intros Hp Ht.
  - change (str_lower EmptyString +:+ t) with t. destruct t.
    + vm_compute in Ht. discriminate.
    + rewrite re_match_body_cons, Ht. reflexivity.
  - simpl str_lower. rewrite append_cons, re_match_body_cons.
    simpl in Hp. rewrite char_lower_newline.
    destruct (char_eqb c newline_char); [lia|].
    rewrite IH by (assumption || lia). apply orb_true_r.
Qed.

Lemma re_match_tail_header lineno rest :
  str_forall char_re_digit lineno = true →
  re_match_tail (re_close +:+ lineno +:+ re_in +:+ rest) = true.
Proof.
  intros H. unfold re_match_tail.
  rewrite str_startswith_app, str_drop_app, re_skip_digits_app by exact H.
  reflexivity.
Qed.

Lemma re_frame_header_search_app pre s :
  re_match_here s = true → re_frame_header_search (pre +:+ s) = true.
Proof.
  intros H. induction pre as [|c pre IH].
  - rewrite append_nil_l. destruct s.
    + vm_compute in H. discriminate.
    + rewrite re_frame_header_search_cons, H. reflexivity.
  - rewrite append_cons, re_frame_header_search_cons, IH. apply orb_true_r.
Qed.

(** The header pattern matches the lower-cased text of every frame header
    whose path holds no newline. *)
Lemma re_frame_header_search_header path lineno rest :
  str_count newline_char path = 0 →
  str_forall char_re_digit lineno = true →
  re_frame_header_search (str_lower (frame_header path lineno rest)) = true.
Proof.
  intros Hp Hn. unfold frame_header.
  rewrite !str_lower_app, (digits_str_lower lineno) by exact Hn.
  change (re_frame_header_search
            ("  " +:+ (re_open +:+ str_lower path +:+ re_close +:+ lineno
                       +:+ re_in +:+ str_lower rest)) = true).
  apply re_frame_header_search_app. unfold re_match_here.
  rewrite str_startswith_app, str_drop_app.
  apply re_match_body_app; [exact Hp|]. apply re_match_tail_header, Hn.
Qed.

Lemma str_split_succ sep m s :
  str_split sep (S m) s
  = match str_partition sep s with
    | Some (before, after) => before :: str_split sep m after
    | None => [s]
    end.
Proof. reflexivity. Qed.

(** The rewrite of a frame header whose path holds no comma: the line
    number is put after the path, inside the quotes, and a quote is put in
    front. *)
Lemma rewrite_frame_header_shape path lineno rest :
  str_count comma_char path = 0 →
  str_forall char_re_digit lineno = true →
  rewrite_frame_header (frame_header path lineno rest)
  = Some (dq +:+ "  File " +:+ dq +:+ path +:+ ":" +:+ lineno +:+ dq
          +:+ ", line " +:+ lineno +:+ ", in " +:+ rest).
Proof.
  intros Hp Hn. unfold rewrite_frame_header, frame_header.
  assert (str_split comma_char 2
            ("  File " +:+ dq +:+ path +:+ dq +:+ ", line " +:+ lineno +:+ ", in " +:+ rest)
          = [("  File " +:+ dq +:+ path) +:+ dq; " line " +:+ lineno; " in " +:+ rest])
    as ->.
  { replace ("  File " +:+ dq +:+ path +:+ dq +:+ ", line " +:+ lineno +:+ ", in " +:+ rest)
      with ((("  File " +:+ dq +:+ path) +:+ dq)
            +:+ String comma_char ((" line " +:+ lineno) +:+ String comma_char (" in " +:+ rest)))
      by (rewrite !append_assoc; reflexivity).
    rewrite str_split_succ, str_partition_app.
    2:{ rewrite !str_count_app, Hp. reflexivity. }
    rewrite str_split_succ, str_partition_app.
    2:{ rewrite str_count_app, (digits_no_comma lineno) by exact Hn. reflexivity. }
    reflexivity. }
  rewrite (str_drop_last_app _ dquote_char : str_drop_last (_ +:+ dq) = _).
  rewrite str_digits_app, (digits_str_digits lineno) by exact Hn.
  change (str_digits " line ") with EmptyString. rewrite append_nil_l.
  f_equal. simpl. rewrite !append_assoc. reflexivity.
Qed.

(** X2: the reformatted frame header holds the path, a colon and the line
    number, inside the quotes, when the path has no comma and no newline;
    the rest of the line is kept. *)
Lemma reformat_line_header path lineno rest :
  str_count comma_char path = 0 →
  str_count newline_char path = 0 →
  str_forall char_re_digit lineno = true →
  reformat_line (frame_header path lineno rest)
  = Some (("  File " +:+ dq) +:+ (path +:+ ":" +:+ lineno) +:+ dq
          +:+ ", line " +:+ lineno +:+ ", in " +:+ rest)
  ∧ str_contains (path +:+ ":" +:+ lineno)
      (("  File " +:+ dq) +:+ (path +:+ ":" +:+ lineno) +:+ dq
       +:+ ", line " +:+ lineno +:+ ", in " +:+ rest) = true.
Proof.
  intros Hc Hl Hn. split; [|apply str_contains_app].
  unfold reformat_line, rewrite_stage.
  rewrite re_frame_header_search_header, rewrite_frame_header_shape by assumption.
  f_equal. rewrite !append_assoc. reflexivity.
Qed.

(** ** The rewrite adds no occurrence of a name *)

Lemma str_startswith_app_sep n a c b :
  str_count c n = 0 →
  str_startswith n (a +:+ String c b) = str_startswith n a.
Proof.
  revert a. induction n as [|x n IH]; intros a H; [reflexivity|].
  simpl in H. destruct (char_eqb x c) eqn:E; [lia|].
  destruct a as [|y a].
  - rewrite append_nil_l. simpl. rewrite E. reflexivity.
  - rewrite append_cons. simpl. rewrite IH by lia. reflexivity.
Qed.

(** A name is found in two texts joined by a character it does not hold
    exactly when it is found in one of them. *)
Lemma str_contains_app_sep n a c b :
  str_count c n = 0 →
  str_contains n (a +:+ String c b) = str_contains n a || str_contains n b.
Proof.
  intros H. induction a as [|y a IH].
  - rewrite append_nil_l. simpl.
    rewrite <- (append_nil_l (String c b)), str_startswith_app_sep by exact H.
    rewrite orb_false_r. reflexivity.
  - rewrite append_cons. simpl. rewrite IH.
    rewrite <- (append_cons y a (String c b)), str_startswith_app_sep by exact H.
    rewrite orb_assoc. reflexivity.
Qed.

Lemma str_startswith_app_l n a b :
  str_startswith n a = true → str_startswith n (a +:+ b) = true.
Proof.
  revert a. induction n as [|x n IH]; intros a H; [reflexivity|].
  destruct a as [|y a]; [discriminate|]. rewrite append_cons. simpl in *.
  apply andb_true_iff in H as [-> H]. apply IH, H.
Qed.

Lemma str_contains_app_l n a b :
  str_contains n a = true → str_contains n (a +:+ b) = true.
Proof.
  induction a as [|y a IH]; intros H.
  - simpl in H. rewrite orb_false_r in H.
    apply str_contains_startswith. apply (str_startswith_app_l n EmptyString b H).
  - rewrite append_cons. simpl in *. apply orb_true_iff in H as [H|H].
    + rewrite <- (append_cons y a b), (str_startswith_app_l _ _ b H). reflexivity.
    + rewrite (IH H). apply orb_true_r.
Qed.

Lemma str_drop_last_prefix s : ∃ t, s = str_drop_last s +:+ t.
Proof.
  induction s as [|c s (t & IH)].
  - exists EmptyString. reflexivity.
  - destruct s as [|d s].
    + exists (String c EmptyString). reflexivity.
    + exists t. change (str_drop_last (String c (String d s)))
        with (String c (str_drop_last (String d s))).
      rewrite append_cons, <- IH. reflexivity.
Qed.

Lemma str_contains_drop_last n s :
  str_contains n s = false → str_contains n (str_drop_last s) = false.
Proof.
  intros H. destruct (str_contains n (str_drop_last s)) eqn:E; [|reflexivity].
  destruct (str_drop_last_prefix s) as [t Ht].
  rewrite Ht, (str_contains_app_l _ _ t E) in H. discriminate.
Qed.

(** The digits of a text hold no letter, so they do not hold the name of
    the routine. *)
Lemma str_contains_digits s : str_contains execute_code_name (str_digits s) = false.
Proof.
  induction s as [|c s IH]; [reflexivity|]. simpl.
  destruct (char_isdigit c) eqn:E; [|exact IH].
  simpl. rewrite IH, orb_false_r.
  destruct c as [[] [] [] [] [] [] [] []]; try reflexivity; discriminate E.
Qed.

(** A rewritten frame header names the routine only if the line did. *)
Lemma rewritten_header_unnamed line l :
  str_contains execute_code_name line = false →
  re_frame_header_search (str_lower line) = true →
  reformat_line line = Some l →
  str_contains execute_code_name l = false.
Proof.
  intros Hline Hre. unfold reformat_line, rewrite_stage. rewrite Hre.
  apply re_frame_header_search_commas in Hre. rewrite str_count_lower in Hre.
  destruct (str_split_two comma_char line Hre) as (c0 & c1 & c2 & Hs & Hl).
  unfold rewrite_frame_header. rewrite Hs. intros Hsome.
  assert (l = str_remove_first dquote_char
                (str_join ","
                   [dq +:+ str_drop_last c0 +:+ ":" +:+ str_digits c1 +:+ dq; c1; c2]))
    as Hleq by congruence.
  clear Hsome. rewrite Hl in Hline.
  rewrite !str_contains_app_sep in Hline by reflexivity.
  apply orb_false_iff in Hline as [H0 H12]. apply orb_false_iff in H12 as [H1 H2].
  replace (str_contains execute_code_name l)
    with (str_contains execute_code_name
            (str_drop_last c0
             +:+ String ":" (str_digits c1
             +:+ String dquote_char (EmptyString
             +:+ String comma_char (c1 +:+ String comma_char c2))))).
  2:{ rewrite Hleq. f_equal. cbn [str_join]. rewrite !append_assoc. reflexivity. }
  rewrite !str_contains_app_sep by reflexivity.
  rewrite (str_contains_drop_last _ _ H0), str_contains_digits, H1, H2. reflexivity.
Qed.

Lemma Forall2_strengthen {A B} (R R' : A → B → Prop) (P : A → Prop) l k :
  Forall2 R l k → Forall P l → (∀ x y, R x y → P x → R' x y) → Forall2 R' l k.
Proof.
  intros H HP Himp. induction H as [|x y l k Hxy H IH]; [constructor|].
  inversion HP; subst. constructor; auto.
Qed.

(** ** The routine's own frame *)

Lemma routine_frame_names_routine path lineno source_line :
  str_contains execute_code_name
    (traceback_frame path lineno execute_code_name source_line) = true.
Proof.
  unfold traceback_frame.
  replace ("  File " +:+ dq +:+ path +:+ dq +:+ ", line " +:+ lineno +:+ ", in "
           +:+ execute_code_name +:+ nl +:+ "    " +:+ source_line +:+ nl)
    with (("  File " +:+ dq +:+ path +:+ dq +:+ ", line " +:+ lineno +:+ ", in ")
          +:+ execute_code_name +:+ (nl +:+ "    " +:+ source_line +:+ nl))
    by (rewrite !append_assoc; reflexivity).
  apply str_contains_app.
Qed.

Lemma kept_lines_spec lines line :
  line ∈ kept_lines lines ↔ line ∈ lines ∧ str_contains execute_code_name line = false.
Proof. unfold kept_lines. rewrite list_elem_of_filter. tauto. Qed.

(** ** State bookkeeping *)

Lemma the_host_get_exec_globals st : the_host (get_exec_globals st) = the_host st.
Proof. unfold get_exec_globals. destruct (vscode_variables st); reflexivity. Qed.

Lemma get_exec_globals_bound st : is_Some (vscode_variables (get_exec_globals st)).
Proof. unfold get_exec_globals. destruct (vscode_variables st) eqn:E; simpl; rewrite ?E; eauto. Qed.

(** Once bound, the dictionary is not created again. *)
Lemma get_exec_globals_idem st : get_exec_globals (get_exec_globals st) = get_exec_globals st.
Proof. unfold get_exec_globals. destruct (vscode_variables st) eqn:E; simpl; rewrite ?E; reflexivity. Qed.

Lemma get_exec_globals_id st :
  is_Some (vscode_variables st) → get_exec_globals st = st.
Proof. intros [ns H]. unfold get_exec_globals. rewrite H. reflexivity. Qed.

Lemma with_UnrealLogRedirectDebugging_eq body st :
  with_UnrealLogRedirectDebugging body st
  = (fst (body (entered st)),
     set_host (UnrealLogRedirectDebugging_exit (block_object st)
                 (the_host (snd (body (entered st)))))
       (snd (body (entered st)))).
Proof.
  unfold with_UnrealLogRedirectDebugging, entered, block_object. simpl.
  destruct (body _) as [o st3]. reflexivity.
Qed.

Lemma vscode_variables_entered st : vscode_variables (entered st) = vscode_variables st.
Proof. reflexivity. Qed.

Lemma files_entered st : files (the_host (entered st)) = files (the_host st).
Proof. reflexivity. Qed.

Lemma outputs_entered st : outputs (the_host (entered st)) = outputs (the_host st).
Proof. reflexivity. Qed.

Ltac unfold_execute_code := unfold execute_code, try_body, exec_shared.
Ltac unfold_read_and_execute := unfold read_and_execute.
Ltac unfold_main := unfold main.

Section Claims.

Set Default Proof Using "Type".

Variable code_object : Type.
Variable py_compile : string → string → compile_error + code_object.
Variable py_exec :
  code_object → gmap string value → host → outcome * gmap string value * host.
Variable tempdir : string.
Variable os_path_join : string → string → string.

Local Abbreviation exec_shared := (exec_shared code_object py_exec).
Local Abbreviation try_body := (try_body code_object py_compile py_exec).
Local Abbreviation execute_code := (execute_code code_object py_compile py_exec).
Local Abbreviation read_and_execute := (read_and_execute code_object py_compile py_exec).
Local Abbreviation output_filepath := (output_filepath tempdir os_path_join).
Local Abbreviation main := (main code_object py_compile py_exec tempdir os_path_join).

(** *** The handler *)

(** The handler when the traceback is formatted: the loop raises nothing,
    and the handler ends by one call of [unreal.log_error] on the message
    built from the kept lines. *)
Lemma handler_logs e st lines :
  exn_format e = Formatted lines →
  ∃ traceback_lines,
    Forall2 (λ line l, reformat_line line = Some l)
      (kept_lines lines) traceback_lines
    ∧ handler e st
      = (Returned,
         set_host (call (unreal_log_error (the_host st))
                     (traceback_message traceback_lines) (the_host st)) st).
Proof.
  intros Hf. destruct (reformat_traceback_kept lines) as (ls & Hls & Hall).
  exists ls. split; [exact Hall|]. unfold handler. rewrite Hf, Hls. reflexivity.
Qed.

(** The handler when [traceback.format_exception] raises: that exception
    leaves the handler, and nothing else has happened. *)
Lemma handler_format_raises e st e' :
  exn_format e = FormatRaises e' → handler e st = (Raised e', st).
Proof. intros Hf. unfold handler. rewrite Hf. reflexivity. Qed.

(** In both cases the handler changes the host by at most one message, and
    nothing else of the state. *)
Lemma handler_frame e st :
  ∃ o h,
    handler e st = (o, set_host h st)
    ∧ files h = files (the_host st)
    ∧ (h = the_host st
       ∨ ∃ msg, h = call (unreal_log_error (the_host st)) msg (the_host st)).
Proof.
  destruct (exn_format e) as [lines|e'] eqn:Hf.
  - destruct (handler_logs e st lines Hf) as (ls & _ & ->). eauto 10.
  - rewrite (handler_format_raises e st e' Hf). exists (Raised e'), (the_host st).
    split; [destruct st; reflexivity|]. auto.
Qed.



(** C2 (as amended): for a script whose compilation or execution raises an
    instance of [Exception] that [traceback.format_exception] formats,
    [execute_code] calls [unreal.log_error] exactly once: what was sent is
    what the script sent followed by that one message. The message is the
    stripped concatenation of the reformatted kept lines; no kept line names
    the routine, so no frame of the routine is among them, and no
    reformatted frame header names it either. For an exception that is no
    instance of [Exception], and for one whose formatting raises, nothing
    is sent. *)
Theorem execute_code_logs_once code filename dbg st e st' :
  try_body code filename st = (Raised e, st') →
  (isinstance_Exception (exn_class_of e) = true →
   ∀ lines, exn_format e = Formatted lines →
   ∃ traceback_lines,
     Forall2 (λ line l,
                reformat_line line = Some l
                ∧ (re_frame_header_search (str_lower line) = true →
                   str_contains execute_code_name l = false))
       (kept_lines lines) traceback_lines
     ∧ outputs (the_host (snd (execute_code code filename dbg st)))
       = outputs (the_host st')
         ++ [emit (unreal_log_error (the_host st')) (traceback_message traceback_lines)]
     ∧ Forall (λ line, str_contains execute_code_name line = false) (kept_lines lines)
     ∧ ∀ path lineno source_line,
         traceback_frame path lineno execute_code_name source_line ∉ kept_lines lines)
  ∧ (isinstance_Exception (exn_class_of e) = false
     ∨ (∃ e', exn_format e = FormatRaises e') →
     outputs (the_host (snd (execute_code code filename dbg st)))
     = outputs (the_host st')).
Proof.
  intros Hbody. unfold execute_code. rewrite Hbody. split.
  - intros -> lines Hf.
    destruct (handler_logs e st' lines Hf) as (ls & Hall & ->).
    assert (Forall (λ line, str_contains execute_code_name line = false)
              (kept_lines lines)) as Hkept.
    { apply Forall_forall. intros line Hin. apply kept_lines_spec in Hin as [_ Hc].
      exact Hc. }
    exists ls. split; [|split; [reflexivity|split; [exact Hkept|]]].
    + apply (Forall2_strengthen _ _ _ _ _ Hall Hkept).
      intros line l Hl Hline. split; [exact Hl|]. intros Hre.
      apply (rewritten_header_unnamed line l Hline Hre Hl).
    + intros path lineno source_line Hin. apply kept_lines_spec in Hin as [_ Hc].
      rewrite routine_frame_names_routine in Hc. discriminate.
  - intros [Hi | [e' Hf]].
    + rewrite Hi. reflexivity.
    + destruct (isinstance_Exception (exn_class_of e)); [|reflexivity].
      rewrite (handler_format_raises e st' e' Hf). reflexivity.
Qed.

(** C4 (as amended): when the script compiles and its execution ends
    without an exception, [execute_code] returns normally and sends nothing
    itself: the host is as the script left it, so the error channel holds
    what the script sent and no more. *)
Theorem execute_code_silent_on_success code filename dbg st co ns' h' :
  py_compile code filename = inr co →
  py_exec co (exec_globals (get_exec_globals st)) (the_host st) = (Returned, ns', h') →
  execute_code code filename dbg st
  = (Returned, {| vscode_variables := Some ns'; the_host := h' |}).
Proof.
  intros Hc He. unfold_execute_code.
  rewrite Hc, the_host_get_exec_globals, He. reflexivity.
Qed.

(** *** The shim *)

(** C7: after the scoped block, however its body ended, the three logging
    attributes of the host module are the objects they were before it. *)
Theorem redirect_restores_handlers (body : state → outcome * state) (st : state) :
  unreal_log (the_host (snd (with_UnrealLogRedirectDebugging body st)))
  = unreal_log (the_host st)
  ∧ unreal_log_error (the_host (snd (with_UnrealLogRedirectDebugging body st)))
    = unreal_log_error (the_host st)
  ∧ unreal_log_warning (the_host (snd (with_UnrealLogRedirectDebugging body st)))
    = unreal_log_warning (the_host st).
Proof.
  unfold with_UnrealLogRedirectDebugging. simpl.
  destruct (body _) as [o st3]. simpl. auto.
Qed.

(** *** The namespace before execution *)

Lemma setup_namespace_file exec_origin name_var ns :
  setup_namespace exec_origin name_var ns !! "__file__" = Some (VStr exec_origin).
Proof.
  unfold setup_namespace. destruct (truthy name_var).
  - rewrite lookup_insert_ne by discriminate. apply lookup_insert_eq.
  - destruct (<["__file__":=VStr exec_origin]> ns !! "__name__").
    + rewrite lookup_delete_ne by discriminate. apply lookup_insert_eq.
    + apply lookup_insert_eq.
Qed.

Lemma setup_namespace_name exec_origin name_var ns :
  setup_namespace exec_origin name_var ns !! "__name__"
  = if truthy name_var then Some (name_var_value name_var) else None.
Proof.
  unfold setup_namespace. destruct (truthy name_var).
  - apply lookup_insert_eq.
  - destruct (<["__file__":=VStr exec_origin]> ns !! "__name__") eqn:E.
    + apply lookup_delete_eq.
    + exact E.
Qed.

Lemma setup_namespace_other exec_origin name_var ns x :
  x ≠ "__file__" → x ≠ "__name__" →
  setup_namespace exec_origin name_var ns !! x = ns !! x.
Proof.
  intros Hf Hn. unfold setup_namespace. destruct (truthy name_var).
  - rewrite !lookup_insert_ne by congruence. reflexivity.
  - destruct (<["__file__":=VStr exec_origin]> ns !! "__name__").
    + rewrite lookup_delete_ne, lookup_insert_ne by congruence. reflexivity.
    + rewrite lookup_insert_ne by congruence. reflexivity.
Qed.

Lemma main_setup_namespace exec_origin name_var st :
  vscode_variables (main_setup exec_origin name_var st)
  = Some (setup_namespace exec_origin name_var (exec_globals (get_exec_globals st))).
Proof.
  unfold main_setup, update_exec_globals, exec_globals, get_exec_globals.
  destruct (vscode_variables st) eqn:E; simpl; rewrite ?E; reflexivity.
Qed.

Lemma exec_globals_main_setup exec_origin name_var st :
  exec_globals (main_setup exec_origin name_var st)
  = setup_namespace exec_origin name_var (exec_globals (get_exec_globals st)).
Proof. unfold exec_globals at 1. rewrite main_setup_namespace. reflexivity. Qed.

Lemma the_host_main_setup exec_origin name_var st :
  the_host (main_setup exec_origin name_var st) = the_host st.
Proof. unfold main_setup. simpl. apply the_host_get_exec_globals. Qed.

(** *** What a call leaves in the state *)

(** The dictionary stays bound through [execute_code]. *)
Lemma execute_code_bound code filename dbg st :
  is_Some (vscode_variables st) →
  is_Some (vscode_variables (snd (execute_code code filename dbg st))).
Proof.
  intros Hb. unfold_execute_code.
  destruct (py_compile code filename) as [e|co].
  - cbn [try_body]. destruct (isinstance_Exception (exn_class_of (compile_exn e))); [|exact Hb].
    destruct (handler_frame (compile_exn e) st) as (o & h & -> & _). exact Hb.
  - destruct (py_exec co _ _) as [[[|e] ns'] h']; simpl; [eauto|].
    destruct (isinstance_Exception (exn_class_of e)); [|simpl; eauto].
    destruct (handler_frame e {| vscode_variables := Some ns'; the_host := h' |})
      as (o' & hh & -> & Hfiles & _).
    simpl. eauto.
Qed.

Lemma read_and_execute_bound f exec_origin dbg st :
  is_Some (vscode_variables st) →
  is_Some (vscode_variables (snd (read_and_execute f exec_origin dbg st))).
Proof.
  intros Hb. unfold_read_and_execute. destruct (read_file f); [exact Hb|].
  apply execute_code_bound, Hb.
Qed.

Lemma main_bound exec_file exec_origin command_id is_debugging name_var st :
  is_Some (vscode_variables
             (snd (main exec_file exec_origin command_id is_debugging name_var st))).
Proof.
  assert (is_Some (vscode_variables (main_setup exec_origin name_var st))) as Hb
    by (rewrite main_setup_namespace; eauto).
  unfold_main. destruct (open_file _ exec_file) as [e|f]; [exact Hb|].
  destruct is_debugging; cbn [negb].
  - rewrite with_UnrealLogRedirectDebugging_eq. cbn [snd].
    apply (read_and_execute_bound f exec_origin true (entered _)), Hb.
  - apply read_and_execute_bound, Hb.
Qed.

(** When the file is read and its text compiles, [main] runs the script on
    the dictionary as the setup left it, and the dictionary after the call
    is the one the script left. *)
Lemma main_runs_script exec_file exec_origin command_id is_debugging name_var st f text co :
  open_file (files (the_host st)) exec_file = inr f →
  read_file f = inr text →
  py_compile text exec_origin = inr co →
  ∃ h,
    vscode_variables (snd (main exec_file exec_origin command_id is_debugging name_var st))
    = Some (snd (fst (py_exec co
                        (setup_namespace exec_origin name_var
                           (exec_globals (get_exec_globals st))) h))).
Proof.
  intros Ho Hr Hc. unfold_main.
  rewrite the_host_main_setup, Ho.
  assert (∀ s, vscode_variables s = vscode_variables (main_setup exec_origin name_var st) →
    vscode_variables (snd (read_and_execute f exec_origin is_debugging s))
    = Some (snd (fst (py_exec co
                        (setup_namespace exec_origin name_var
                           (exec_globals (get_exec_globals st))) (the_host s))))) as Hrun.
  { intros s Hs. rewrite main_setup_namespace in Hs.
    unfold_read_and_execute. unfold_execute_code.
    rewrite Hr, Hc, the_host_get_exec_globals.
    rewrite (get_exec_globals_id s) by (rewrite Hs; eauto).
    unfold exec_globals at 1. rewrite Hs.
    destruct (py_exec co _ (the_host s)) as [[[|e] ns'] h']; simpl; [reflexivity|].
    destruct (isinstance_Exception (exn_class_of e)); [|reflexivity].
    destruct (handler_frame e {| vscode_variables := Some ns'; the_host := h' |})
      as (o' & hh & -> & Hfiles & _).
    reflexivity. }
  destruct is_debugging; cbn [negb].
  - rewrite with_UnrealLogRedirectDebugging_eq. cbn [snd]. eexists.
    apply (Hrun (entered _)). reflexivity.
  - eauto.
Qed.

(** When the text compiles, the dictionary after [execute_code] is the one
    the script left, whatever the outcome. *)
Lemma execute_code_runs_script code filename dbg st co :
  py_compile code filename = inr co →
  vscode_variables (snd (execute_code code filename dbg st))
  = Some (snd (fst (py_exec co (exec_globals (get_exec_globals st)) (the_host st)))).
Proof.
  intros Hc. unfold_execute_code. rewrite Hc, the_host_get_exec_globals.
  destruct (py_exec co _ _) as [[[|e] ns'] h']; cbn [fst snd]; [reflexivity|].
  destruct (isinstance_Exception (exn_class_of e)); [|reflexivity].
  destruct (handler_frame e {| vscode_variables := Some ns'; the_host := h' |})
    as (o' & hh & -> & Hfiles & _).
  reflexivity.
Qed.

(** X7: two calls of [execute_code] in a row: the second script is executed
    on the dictionary that the first one left, all of it, whatever the
    outcome of the first. *)
Lemma execute_code_twice code1 filename1 dbg1 code2 filename2 dbg2 st co1 co2 :
  py_compile code1 filename1 = inr co1 →
  py_compile code2 filename2 = inr co2 →
  vscode_variables
    (snd (execute_code code2 filename2 dbg2 (snd (execute_code code1 filename1 dbg1 st))))
  = Some (snd (fst (py_exec co2
                      (snd (fst (py_exec co1 (exec_globals (get_exec_globals st))
                                   (the_host st))))
                      (the_host (snd (execute_code code1 filename1 dbg1 st)))))).
Proof.
  intros H1 H2. rewrite (execute_code_runs_script code2 filename2 dbg2 _ co2 H2).
  pose proof (execute_code_runs_script code1 filename1 dbg1 st co1 H1) as Hns.
  rewrite get_exec_globals_id by (rewrite Hns; eauto).
  unfold exec_globals at 1. rewrite Hns. reflexivity.
Qed.

(** X11: in debugging mode [main] leaves the three handlers as it found
    them, whatever the script did to them and however the call ended. *)
Lemma main_debugging_handlers exec_file exec_origin command_id name_var st :
  unreal_log (the_host (snd (main exec_file exec_origin command_id true name_var st)))
  = unreal_log (the_host st)
  ∧ unreal_log_error (the_host (snd (main exec_file exec_origin command_id true name_var st)))
    = unreal_log_error (the_host st)
  ∧ unreal_log_warning (the_host (snd (main exec_file exec_origin command_id true name_var st)))
    = unreal_log_warning (the_host st).
Proof.
  unfold_main. rewrite the_host_main_setup.
  pose proof (the_host_main_setup exec_origin name_var st) as Hh.
  revert Hh. generalize (main_setup exec_origin name_var st). intros s Hh.
  destruct (open_file _ exec_file) as [e|f].
  - rewrite <- Hh. auto.
  - cbn [negb]. rewrite with_UnrealLogRedirectDebugging_eq. rewrite <- Hh. auto.
Qed.

(** *** Two calls in a row *)

(** C5 (as amended): the dictionary is bound once and used by every call.
    After a call of [main] it is bound and [get_exec_globals] returns it as
    it is; and when a second call of [main] reads and compiles its script,
    that script is executed on a dictionary in which every variable [x] that
    the first call left bound, other than [__file__] and [__name__] (which
    the setup of the second call rebinds), has the value the first call
    left. *)
Theorem shared_namespace_persists
    f1 o1 id1 d1 n1 f2 o2 id2 d2 n2 st x v f text co :
  exec_globals (snd (main f1 o1 id1 d1 n1 st)) !! x = Some v →
  x ≠ "__file__" → x ≠ "__name__" →
  open_file (files (the_host (snd (main f1 o1 id1 d1 n1 st)))) f2 = inr f →
  read_file f = inr text →
  py_compile text o2 = inr co →
  get_exec_globals (snd (main f1 o1 id1 d1 n1 st)) = snd (main f1 o1 id1 d1 n1 st)
  ∧ setup_namespace o2 n2 (exec_globals (snd (main f1 o1 id1 d1 n1 st))) !! x = Some v
  ∧ ∃ h,
      vscode_variables (snd (main f2 o2 id2 d2 n2 (snd (main f1 o1 id1 d1 n1 st))))
      = Some (snd (fst (py_exec co
                          (setup_namespace o2 n2
                             (exec_globals (snd (main f1 o1 id1 d1 n1 st)))) h))).
Proof.
  intros Hx Hf Hn Ho Hr Hc.
  pose proof (main_bound f1 o1 id1 d1 n1 st) as Hb.
  rewrite (get_exec_globals_id _ Hb). split; [reflexivity|]. split.
  - rewrite setup_namespace_other by assumption. exact Hx.
  - destruct (main_runs_script f2 o2 id2 d2 n2 _ f text co Ho Hr Hc) as [h Hh].
    rewrite (get_exec_globals_id _ Hb) in Hh. eauto.
Qed.

(** C6 (as amended): after the setup of [main] the dictionary binds
    [__file__] to [exec_origin]; it binds [__name__] to [name_var] when
    [name_var] is a non-empty string; and it has no [__name__] when
    [name_var] is omitted or empty, whatever an earlier call bound, in
    particular after an earlier call of [main] that supplied a name. *)
Theorem main_setup_bindings exec_origin name_var st :
  exec_globals (main_setup exec_origin name_var st) !! "__file__" = Some (VStr exec_origin)
  ∧ (∀ n, name_var = Some n → n ≠ EmptyString →
       exec_globals (main_setup exec_origin name_var st) !! "__name__" = Some (VStr n))
  ∧ (name_var = None ∨ name_var = Some EmptyString →
       exec_globals (main_setup exec_origin name_var st) !! "__name__" = None)
  ∧ (∀ f1 o1 id1 d1 n1,
       exec_globals (main_setup exec_origin None (snd (main f1 o1 id1 d1 (Some n1) st)))
         !! "__name__" = None).
Proof.
  rewrite exec_globals_main_setup, setup_namespace_file, setup_namespace_name.
  split; [reflexivity|]. split; [|split].
  - intros n -> Hn. destruct n; [congruence|reflexivity].
  - intros [-> | ->]; reflexivity.
  - intros. rewrite exec_globals_main_setup, setup_namespace_name. reflexivity.
Qed.

(** *** Files *)

Lemma execute_code_files code filename dbg st :
  files (the_host (snd (execute_code code filename dbg st))) = files (the_host st)
  ∨ ∃ co ns,
      files (the_host (snd (execute_code code filename dbg st)))
      = files (snd (py_exec co ns (the_host st))).
Proof.
  unfold_execute_code.
  destruct (py_compile code filename) as [e|co].
  - left. destruct (isinstance_Exception (exn_class_of (compile_exn e))); [|reflexivity].
    destruct (handler_frame (compile_exn e) st) as (o & h & -> & Hfiles & _). exact Hfiles.
  - right. exists co, (exec_globals (get_exec_globals st)).
    rewrite the_host_get_exec_globals.
    destruct (py_exec co _ _) as [[[|e] ns'] h']; simpl; [reflexivity|].
    destruct (isinstance_Exception (exn_class_of e)); [|reflexivity].
    destruct (handler_frame e {| vscode_variables := Some ns'; the_host := h' |})
      as (o' & hh & -> & Hfiles & _).
    exact Hfiles.
Qed.

Lemma read_and_execute_files f exec_origin dbg st :
  files (the_host (snd (read_and_execute f exec_origin dbg st))) = files (the_host st)
  ∨ ∃ co ns,
      files (the_host (snd (read_and_execute f exec_origin dbg st)))
      = files (snd (py_exec co ns (the_host st))).
Proof.
  unfold_read_and_execute. destruct (read_file f); [left; reflexivity|].
  apply execute_code_files.
Qed.

(** C9: [main] writes no file. The files after a call are the files before
    it, or the files as one execution of the user script, started on the
    files before the call, left them; so the entry at the path computed
    from [command_id] changes only if the script changes it. *)
Theorem main_writes_no_file exec_file exec_origin command_id is_debugging name_var st :
  (files (the_host (snd (main exec_file exec_origin command_id is_debugging name_var st)))
   = files (the_host st)
   ∨ ∃ co ns h,
       files h = files (the_host st)
       ∧ files (the_host (snd (main exec_file exec_origin command_id is_debugging name_var st)))
         = files (snd (py_exec co ns h)))
  ∧ ((∀ co ns h,
        files (snd (py_exec co ns h)) !! output_filepath command_id
        = files h !! output_filepath command_id) →
     files (the_host (snd (main exec_file exec_origin command_id is_debugging name_var st)))
       !! output_filepath command_id
     = files (the_host st) !! output_filepath command_id).
Proof.
  assert (files (the_host (snd (main exec_file exec_origin command_id is_debugging name_var st)))
          = files (the_host st)
          ∨ ∃ co ns h,
              files h = files (the_host st)
              ∧ files (the_host (snd (main exec_file exec_origin command_id is_debugging name_var st)))
                = files (snd (py_exec co ns h))) as H.
  { unfold_main. rewrite the_host_main_setup.
    destruct (open_file _ exec_file) as [e|f].
    { left. cbn [snd]. rewrite the_host_main_setup. reflexivity. }
    destruct is_debugging; cbn [negb].
    - rewrite with_UnrealLogRedirectDebugging_eq. cbn [snd].
      destruct (read_and_execute_files f exec_origin true
                  (entered (main_setup exec_origin name_var st))) as [Hs | (co & ns & Hs)].
      + left. cbn [the_host set_host]. unfold UnrealLogRedirectDebugging_exit, set_handlers.
        cbn [files]. rewrite Hs, files_entered, the_host_main_setup. reflexivity.
      + right. exists co, ns, (the_host (entered (main_setup exec_origin name_var st))).
        split; [rewrite files_entered, the_host_main_setup; reflexivity|].
        cbn [the_host set_host]. unfold UnrealLogRedirectDebugging_exit, set_handlers.
        cbn [files]. exact Hs.
    - destruct (read_and_execute_files f exec_origin false
                  (main_setup exec_origin name_var st)) as [Hs | (co & ns & Hs)].
      + left. rewrite Hs, the_host_main_setup. reflexivity.
      + right. exists co, ns, (the_host (main_setup exec_origin name_var st)).
        split; [|exact Hs]. rewrite the_host_main_setup. reflexivity. }
  split; [exact H|]. intros Hscript.
  destruct H as [-> | (co & ns & h & Hh & ->)]; [reflexivity|].
  rewrite Hscript, Hh. reflexivity.
Qed.

(** C10: when [exec_file] cannot be opened, or can be opened and not read,
    [main] ends with that exception; nothing was sent to any channel, the
    three handlers are the ones before the call, and the dictionary has
    been set up all the same: it is bound, with [__file__] and [__name__]
    as the failed call set them. *)
Theorem main_unreadable_file exec_file exec_origin command_id is_debugging name_var st e :
  (open_file (files (the_host st)) exec_file = inl e
   ∨ ∃ f, open_file (files (the_host st)) exec_file = inr f ∧ read_file f = inl e) →
  fst (main exec_file exec_origin command_id is_debugging name_var st) = Raised e
  ∧ outputs (the_host (snd (main exec_file exec_origin command_id is_debugging name_var st)))
    = outputs (the_host st)
  ∧ unreal_log (the_host (snd (main exec_file exec_origin command_id is_debugging name_var st)))
    = unreal_log (the_host st)
  ∧ unreal_log_error (the_host (snd (main exec_file exec_origin command_id is_debugging name_var st)))
    = unreal_log_error (the_host st)
  ∧ unreal_log_warning (the_host (snd (main exec_file exec_origin command_id is_debugging name_var st)))
    = unreal_log_warning (the_host st)
  ∧ vscode_variables (snd (main exec_file exec_origin command_id is_debugging name_var st))
    = Some (setup_namespace exec_origin name_var (exec_globals (get_exec_globals st)))
  ∧ exec_globals (snd (main exec_file exec_origin command_id is_debugging name_var st))
      !! "__file__" = Some (VStr exec_origin)
  ∧ exec_globals (snd (main exec_file exec_origin command_id is_debugging name_var st))
      !! "__name__" = (if truthy name_var then Some (name_var_value name_var) else None).
Proof.
  intros H.
  assert (fst (main exec_file exec_origin command_id is_debugging name_var st) = Raised e
          ∧ outputs (the_host (snd (main exec_file exec_origin command_id is_debugging name_var st)))
            = outputs (the_host st)
          ∧ unreal_log (the_host (snd (main exec_file exec_origin command_id is_debugging name_var st)))
            = unreal_log (the_host st)
          ∧ unreal_log_error (the_host (snd (main exec_file exec_origin command_id is_debugging name_var st)))
            = unreal_log_error (the_host st)
          ∧ unreal_log_warning (the_host (snd (main exec_file exec_origin command_id is_debugging name_var st)))
            = unreal_log_warning (the_host st)
          ∧ vscode_variables (snd (main exec_file exec_origin command_id is_debugging name_var st))
            = Some (setup_namespace exec_origin name_var (exec_globals (get_exec_globals st))))
    as (H1 & H2 & H3 & H4 & H5 & H6).
  { unfold_main. rewrite the_host_main_setup.
    pose proof (the_host_main_setup exec_origin name_var st) as Hh.
    pose proof (main_setup_namespace exec_origin name_var st) as Hns.
    revert Hh Hns. generalize (main_setup exec_origin name_var st). intros s Hh Hns.
    destruct H as [-> | (f & -> & Hr)].
    - repeat split; first [reflexivity | rewrite <- Hh; reflexivity | exact Hns].
    - destruct is_debugging; cbn [negb].
      + rewrite with_UnrealLogRedirectDebugging_eq. unfold_read_and_execute. rewrite Hr.
        repeat split; first [reflexivity | rewrite <- Hh; reflexivity | exact Hns].
      + unfold_read_and_execute. rewrite Hr.
        repeat split; first [reflexivity | rewrite <- Hh; reflexivity | exact Hns]. }
  repeat (split; [assumption|]).
  unfold exec_globals at 1 2. rewrite H6, setup_namespace_file, setup_namespace_name.
  auto.
Qed.

End Claims.

(** ** The reformatting of one line *)

(** C8 (as amended): on a retained line, the first quote character of the
    line as the rewrite left it is removed, wherever it stands, and the
    other characters are kept; a line without a quote is unchanged. For a
    rewritten frame header the quote removed is the leading one, which the
    rewrite put there. *)
Theorem reformat_line_first_quote line l :
  rewrite_stage line = Some l →
  (str_count dquote_char l = 0 → reformat_line line = Some l)
  ∧ (∀ pre post,
       l = pre +:+ dq +:+ post → str_count dquote_char pre = 0 →
       reformat_line line = Some (pre +:+ post))
  ∧ (re_frame_header_search (str_lower line) = true →
     ∃ post, l = dq +:+ post ∧ reformat_line line = Some post).
Proof.
  intros Hl. unfold reformat_line. rewrite Hl. split; [|split].
  - intros H. rewrite str_remove_first_absent by exact H. reflexivity.
  - intros pre post -> H. f_equal. apply str_remove_first_app, H.
  - intros Hre. unfold rewrite_stage in Hl. rewrite Hre in Hl.
    unfold rewrite_frame_header in Hl.
    destruct (str_split comma_char 2 line) as [|c0 [|c1 rest]]; try discriminate.
    injection Hl as <-.
    exists (str_drop_last c0 +:+ ":" +:+ str_digits c1 +:+ dq +:+ ","
            +:+ str_join "," (c1 :: rest)).
    split; [|f_equal]; cbn [str_join]; rewrite ?append_assoc; reflexivity.
Qed.

Lemma reformat_line_first_quote_witness :
  rewrite_stage Mini.demo_header
  = Some (dq +:+ "  File " +:+ dq +:+ "C:/proj/demo.py:3" +:+ dq
          +:+ ", line 3, in <module>" +:+ nl)
  ∧ reformat_line Mini.demo_header
    = Some ("  File " +:+ dq +:+ "C:/proj/demo.py:3" +:+ dq
            +:+ ", line 3, in <module>" +:+ nl).
Proof.
  split; [reflexivity|].
  apply (proj1 (proj2 (reformat_line_first_quote Mini.demo_header _ eq_refl))
           EmptyString); reflexivity.
Defined.

(** C8, the claim as written fails: the first quote of this line is not its
    leading character, and it is removed. *)
Lemma reformat_line_strips_inner_quote :
  Mini.quoted_message_line = "ValueError: a " +:+ dq +:+ "b" +:+ dq +:+ " c" +:+ nl
  ∧ reformat_line Mini.quoted_message_line
    = Some ("ValueError: a b" +:+ dq +:+ " c" +:+ nl).
Proof. split; reflexivity. Qed.

(** C3, the code at a path that holds a comma: the line is cut inside the
    path, and the result holds neither the path nor the path followed by the
    line number. *)
Theorem reformat_line_comma_path :
  reformat_line Mini.comma_header
  = Some ("  File " +:+ dq +:+ "C:/:" +:+ dq +:+ ",b.py" +:+ dq
          +:+ ", line 3, in <module>" +:+ nl)
  ∧ str_contains "C:/a,b.py:3"
      ("  File " +:+ dq +:+ "C:/:" +:+ dq +:+ ",b.py" +:+ dq
       +:+ ", line 3, in <module>" +:+ nl) = false.
Proof. split; reflexivity. Qed.

(** ** Examples and witnesses on Mini *)


(** An exception that cannot be formatted: the [AttributeError] of
    [traceback.format_exception] leaves [execute_code] and nothing is
    logged. *)
Example execute_code_format_failure :
  Illformed.execute_code Illformed.src Mini.demo false Illformed.st0
  = (Raised Illformed.attribute_error, Illformed.st_bound).
Proof. reflexivity. Qed.


Lemma execute_code_logs_once_witness :
  try_body Mini.code Mini.compile Mini.exec Mini.src_y_is_x Mini.demo Mini.st0
  = (Raised Mini.name_error, Mini.st_bound)
  ∧ ∃ traceback_lines,
      Forall2 (λ line l,
                 reformat_line line = Some l
                 ∧ (re_frame_header_search (str_lower line) = true →
                    str_contains execute_code_name l = false))
        (kept_lines (Mini.formatted_lines Mini.name_error)) traceback_lines
      ∧ outputs (the_host (snd (Mini.execute_code Mini.src_y_is_x Mini.demo false Mini.st0)))
        = [HostLogError (traceback_message traceback_lines)]
      ∧ Forall (λ line, str_contains execute_code_name line = false)
          (kept_lines (Mini.formatted_lines Mini.name_error))
      ∧ ∀ path lineno source_line,
          traceback_frame path lineno execute_code_name source_line
          ∉ kept_lines (Mini.formatted_lines Mini.name_error).
Proof.
  split; [reflexivity|].
  apply (proj1 (execute_code_logs_once Mini.code Mini.compile Mini.exec
                  Mini.src_y_is_x Mini.demo false Mini.st0
                  Mini.name_error Mini.st_bound eq_refl)
           eq_refl (Mini.formatted_lines Mini.name_error) eq_refl).
Defined.

(** The message of that call; there is no file of that name, so the frame
    has no source line. *)
Example execute_code_message :
  outputs (the_host (snd (Mini.execute_code Mini.src_y_is_x Mini.demo false Mini.st0)))
  = [HostLogError
       ("Traceback (most recent call last):" +:+ nl
        +:+ "  File " +:+ dq +:+ "C:/proj/demo.py:1" +:+ dq +:+ ", line 1, in <module>" +:+ nl
        +:+ "NameError: name 'x' is not defined")].
Proof. reflexivity. Qed.

(** The message when the file of the script is there: the frame shows its
    first line. *)
Example main_message_with_source_line :
  outputs (the_host (snd (Mini.main (Mini.tmp "boom.py") "C:/proj/boom.py" "7" false None
                            Mini.st0)))
  = [HostLogError
       ("Traceback (most recent call last):" +:+ nl
        +:+ "  File " +:+ dq +:+ "C:/proj/boom.py:1" +:+ dq +:+ ", line 1, in <module>" +:+ nl
        +:+ "    raise ValueError('boom')" +:+ nl
        +:+ "ValueError: boom")].
Proof. reflexivity. Qed.

(** C2, the claim as written fails: the script raises [KeyboardInterrupt]
    and [unreal.log_error] is not called. *)
Lemma execute_code_logs_nothing_on_KeyboardInterrupt :
  fst (Mini.execute_code Mini.src_keyboard_interrupt Mini.demo false Mini.st0)
  = Raised Mini.keyboard_interrupt
  ∧ outputs (the_host (snd (Mini.execute_code Mini.src_keyboard_interrupt Mini.demo
                              false Mini.st0)))
    = [].
Proof. split; reflexivity. Qed.

Lemma execute_code_silent_on_success_witness :
  Mini.execute_code Mini.src_x_is_1 Mini.demo false Mini.st0
  = (Returned,
     {| vscode_variables := Some (<["x" := VInt 1]> new_exec_globals);
        the_host := Mini.host0 |}).
Proof.
  apply (execute_code_silent_on_success Mini.code Mini.compile Mini.exec
           Mini.src_x_is_1 Mini.demo false Mini.st0
           (Mini.compiled Mini.src_x_is_1 Mini.demo (Mini.Assign "x" (VInt 1))));
    reflexivity.
Defined.

(** C4, the claim as written fails: this script compiles, raises nothing
    and calls [unreal.log_error] itself, so the error channel has received a
    message when [execute_code] returns. *)
Lemma execute_code_script_logs_error :
  fst (Mini.execute_code Mini.src_log_error Mini.demo false Mini.st0) = Returned
  ∧ outputs (the_host (snd (Mini.execute_code Mini.src_log_error Mini.demo false Mini.st0)))
    = [HostLogError "boom"].
Proof. split; reflexivity. Qed.

Lemma shared_namespace_persists_witness :
  exec_globals Mini.st_after_x !! "x" = Some (VInt 1)
  ∧ setup_namespace "C:/proj/y.py" None (exec_globals Mini.st_after_x) !! "x"
    = Some (VInt 1)
  ∧ get_exec_globals Mini.st_after_x = Mini.st_after_x.
Proof.
  split; [reflexivity|].
  pose proof (shared_namespace_persists Mini.code Mini.compile Mini.exec
                Mini.tempdir Mini.path_join
                (Mini.tmp "x.py") "C:/proj/x.py" "1" false None
                (Mini.tmp "y.py") "C:/proj/y.py" "2" true None
                Mini.st0 "x" (VInt 1) (file_text Mini.src_y_is_x) Mini.src_y_is_x
                (Mini.compiled Mini.src_y_is_x "C:/proj/y.py" (Mini.CopyName "y" "x"))
                eq_refl ltac:(discriminate) ltac:(discriminate) eq_refl eq_refl eq_refl)
    as (H1 & H2 & _).
  split; [exact H2 | exact H1].
Defined.

(** The second script reads the variable of the first. *)
Example second_script_reads_x :
  exec_globals (snd (Mini.main (Mini.tmp "y.py") "C:/proj/y.py" "2" true None
                       Mini.st_after_x)) !! "y"
  = Some (VInt 1).
Proof. reflexivity. Qed.

(** C5, the claim as written fails: the first script binds [__name__], and
    the second call, made without [name_var], removes the binding before
    its script runs; the script [pass] leaves the dictionary as it saw it. *)
Lemma second_call_drops_script_name :
  exec_globals Mini.st_after_name !! "__name__" = Some (VStr "mine")
  ∧ exec_globals (main_setup "C:/proj/pass.py" None Mini.st_after_name) !! "__name__"
    = None
  ∧ exec_globals (snd (Mini.main (Mini.tmp "pass.py") "C:/proj/pass.py" "2" false None
                         Mini.st_after_name)) !! "__name__"
    = None.
Proof. repeat split; reflexivity. Qed.

Lemma main_setup_bindings_witness :
  exec_globals (main_setup Mini.demo (Some "__main__") Mini.st0) !! "__file__"
  = Some (VStr Mini.demo)
  ∧ exec_globals (main_setup Mini.demo (Some "__main__") Mini.st0) !! "__name__"
    = Some (VStr "__main__")
  ∧ exec_globals (main_setup Mini.demo None Mini.st_after_main_name) !! "__name__" = None.
Proof.
  pose proof (main_setup_bindings Mini.code Mini.compile Mini.exec
                Mini.tempdir Mini.path_join Mini.demo (Some "__main__") Mini.st0)
    as (H1 & H2 & _ & H4).
  split; [exact H1|]. split; [apply (H2 "__main__"); [reflexivity|discriminate]|].
  apply (H4 (Mini.tmp "pass.py") "C:/proj/pass.py" "1" false "__main__").
Defined.

(** C6, the claim as written fails: an empty [name_var] is supplied, and the
    setup removes [__name__] where the claim has it bound to the argument. *)
Lemma main_setup_empty_name :
  exec_globals Mini.st_after_main_name !! "__name__" = Some (VStr "__main__")
  ∧ exec_globals (main_setup Mini.demo (Some EmptyString) Mini.st_after_main_name)
      !! "__name__" = None.
Proof. split; reflexivity. Qed.

Lemma main_unreadable_file_witness :
  fst (Mini.main (Mini.tmp "binary.py") Mini.demo "7" true (Some "__main__") Mini.st0)
  = Raised Mini.unicode_decode_error
  ∧ outputs (the_host (snd (Mini.main (Mini.tmp "binary.py") Mini.demo "7" true
                              (Some "__main__") Mini.st0))) = []
  ∧ exec_globals (snd (Mini.main (Mini.tmp "binary.py") Mini.demo "7" true
                         (Some "__main__") Mini.st0)) !! "__file__"
    = Some (VStr Mini.demo).
Proof.
  pose proof (main_unreadable_file Mini.code Mini.compile Mini.exec
                Mini.tempdir Mini.path_join
                (Mini.tmp "binary.py") Mini.demo "7" true (Some "__main__") Mini.st0
                Mini.unicode_decode_error
                (or_intror (ex_intro _ (file_unreadable Mini.unicode_decode_error)
                              (conj eq_refl eq_refl))))
    as (H1 & H2 & _ & _ & _ & _ & H7 & _).
  split; [exact H1|]. split; [exact H2 | exact H7].
Defined.

Lemma main_writes_no_file_witness :
  files (the_host (snd (Mini.main (Mini.tmp "boom.py") Mini.demo "7" true None Mini.st0)))
    !! output_filepath Mini.tempdir Mini.path_join "7"
  = None.
Proof.
  unfold Mini.main.
  rewrite (proj2 (main_writes_no_file Mini.code Mini.compile Mini.exec
                    Mini.tempdir Mini.path_join
                    (Mini.tmp "boom.py") Mini.demo "7" true None Mini.st0)).
  - reflexivity.
  - intros [filename text script] ns h. unfold Mini.exec. cbn [Mini.co_script].
    destruct script; try reflexivity.
    destruct (ns !! source); reflexivity.
Defined.

(** A missing file: the call ends with FileNotFoundError. *)
Example main_missing_file :
  fst (Mini.main (Mini.tmp "missing.py") Mini.demo "7" false None Mini.st0)
  = Raised FileNotFoundError.
Proof. reflexivity. Qed.

(** A path with a comma, through [main]: the message holds the cut path. *)
Example main_comma_path_message :
  outputs (the_host (snd (Mini.main (Mini.tmp "boom.py") "C:/proj/a,b.py" "7" false None
                            Mini.st0)))
  = [HostLogError
       ("Traceback (most recent call last):" +:+ nl
        +:+ "  File " +:+ dq +:+ "C:/proj/:" +:+ dq +:+ ",b.py" +:+ dq
        +:+ ", line 1, in <module>" +:+ nl
        +:+ "ValueError: boom")].
Proof. reflexivity. Qed.

(** A script whose own path holds the name of the routine: its frame is
    skipped with the routine's, and the message keeps the heading and the
    line of the exception. *)
Example main_path_names_routine_message :
  outputs (the_host (snd (Mini.main (Mini.tmp "boom.py") "C:/proj/execute_code_demo.py"
                            "7" false None Mini.st0)))
  = [HostLogError ("Traceback (most recent call last):" +:+ nl +:+ "ValueError: boom")].
Proof. reflexivity. Qed.

(** * More of the reformatting *)

Lemma str_partition_spec sep s before after :
  str_partition sep s = Some (before, after) →
  s = before +:+ String sep after ∧ str_count sep before = 0.
Proof.
  revert before. induction s as [|c s IH]; intros before H; [discriminate|].
  simpl in H. destruct (char_eqb c sep) eqn:E.
  - apply char_eqb_eq in E as ->. injection H as <- <-. auto.
  - destruct (str_partition sep s) as [[b a]|]; [|discriminate].
    injection H as <- <-. destruct (IH b eq_refl) as [-> Hb].
    split; [reflexivity|]. simpl. rewrite E. exact Hb.
Qed.

Lemma str_split_two_spec sep s c0 c1 c2 :
  str_split sep 2 s = [c0; c1; c2] →
  s = c0 +:+ String sep (c1 +:+ String sep c2)
  ∧ str_count sep c0 = 0 ∧ str_count sep c1 = 0.
Proof.
  rewrite str_split_succ.
  destruct (str_partition sep s) as [[b a]|] eqn:E; [|discriminate].
  rewrite str_split_succ.
  destruct (str_partition sep a) as [[b' a']|] eqn:E'; [|discriminate].
  intros [= <- <- <-].
  apply str_partition_spec in E as [-> Hb]. apply str_partition_spec in E' as [-> Hb'].
  auto.
Qed.

(** X1: whenever the header pattern matches a line, the line has the two
    commas the rewrite relies on, so [components[1]] exists and no
    IndexError is raised. The result is the first part less its last
    character, a colon, the digits of the second part and a quote; the text
    from the first comma on is kept as it is. *)
Theorem header_rewrite_defined line :
  re_frame_header_search (str_lower line) = true →
  ∃ c0 c1 c2,
    line = c0 +:+ "," +:+ c1 +:+ "," +:+ c2
    ∧ str_count comma_char c0 = 0
    ∧ str_count comma_char c1 = 0
    ∧ reformat_line line
      = Some (str_drop_last c0 +:+ ":" +:+ str_digits c1 +:+ dq
              +:+ "," +:+ c1 +:+ "," +:+ c2).
Proof.
  intros Hre. unfold reformat_line, rewrite_stage. rewrite Hre.
  apply re_frame_header_search_commas in Hre. rewrite str_count_lower in Hre.
  destruct (str_split_two comma_char line Hre) as (c0 & c1 & c2 & Hs & _).
  destruct (str_split_two_spec _ _ _ _ _ Hs) as (Hl & H0 & H1).
  exists c0, c1, c2. split; [exact Hl|]. split; [exact H0|]. split; [exact H1|].
  unfold rewrite_frame_header. rewrite Hs. f_equal.
  cbn [str_join]. rewrite !append_assoc. reflexivity.
Qed.

Lemma header_rewrite_defined_witness :
  ∃ c0 c1 c2,
    Mini.comma_header = c0 +:+ "," +:+ c1 +:+ "," +:+ c2
    ∧ str_count comma_char c0 = 0
    ∧ str_count comma_char c1 = 0
    ∧ reformat_line Mini.comma_header
      = Some (str_drop_last c0 +:+ ":" +:+ str_digits c1 +:+ dq
              +:+ "," +:+ c1 +:+ "," +:+ c2).
Proof. apply (header_rewrite_defined Mini.comma_header). reflexivity. Defined.

Lemma reformat_line_header_witness :
  reformat_line Mini.demo_header
  = Some (("  File " +:+ dq) +:+ (Mini.demo +:+ ":" +:+ "3") +:+ dq
          +:+ ", line " +:+ "3" +:+ ", in " +:+ "<module>" +:+ nl).
Proof.
  apply (proj1 (reformat_line_header Mini.demo "3" ("<module>" +:+ nl)
                  eq_refl eq_refl eq_refl)).
Defined.

(** A line with fewer than two commas is not a frame header for the
    pattern: it is kept, less its first quote. *)
Lemma reformat_line_few_commas line :
  str_count comma_char line < 2 →
  reformat_line line = Some (str_remove_first dquote_char line).
Proof.
  intros H. unfold reformat_line, rewrite_stage.
  destruct (re_frame_header_search (str_lower line)) eqn:Hre; [|reflexivity].
  apply re_frame_header_search_commas in Hre. rewrite str_count_lower in Hre. lia.
Qed.

(** X3: the location line of a syntax error has no scope after the line
    number, so the pattern does not match it: the line gets no line number
    after its path, and it loses the quote that opens the path. *)
Theorem reformat_line_syntax_error_location path lineno :
  str_count comma_char path = 0 →
  str_count comma_char lineno = 0 →
  reformat_line ("  File " +:+ dq +:+ path +:+ dq +:+ ", line " +:+ lineno +:+ nl)
  = Some ("  File " +:+ path +:+ dq +:+ ", line " +:+ lineno +:+ nl).
Proof.
  intros Hp Hn. rewrite reformat_line_few_commas.
  - reflexivity.
  - rewrite !str_count_app, Hp, Hn. simpl. lia.
Qed.

Lemma reformat_line_syntax_error_location_witness :
  reformat_line ("  File " +:+ dq +:+ Mini.demo +:+ dq +:+ ", line " +:+ "3" +:+ nl)
  = Some ("  File " +:+ Mini.demo +:+ dq +:+ ", line " +:+ "3" +:+ nl).
Proof. apply (reformat_line_syntax_error_location Mini.demo "3"); reflexivity. Defined.

(** ** The message has no white space around it *)

Lemma str_lstrip_head s c r : str_lstrip s = String c r → char_isspace c = false.
Proof.
  induction s as [|a s IH]; [discriminate|]. simpl.
  destruct (char_isspace a) eqn:E; [exact IH|]. intros [= <- _]. exact E.
Qed.

Lemma str_rstrip_cons c r :
  char_isspace c = false → str_rstrip (String c r) = String c (str_rstrip r).
Proof. intros H. simpl. rewrite H. destruct (str_rstrip r); reflexivity. Qed.

Lemma str_rstrip_last s pre c :
  str_rstrip s = pre +:+ String c EmptyString → char_isspace c = false.
Proof.
  revert pre. induction s as [|a s IH]; intros pre H.
  - destruct pre; discriminate.
  - simpl in H. destruct (str_rstrip s) as [|b u] eqn:E.
    + destruct (char_isspace a) eqn:Ea.
      * destruct pre; discriminate.
      * destruct pre as [|p pre]; [injection H as <-; exact Ea|].
        rewrite append_cons in H. injection H as _ H. destruct pre; discriminate.
    + destruct pre as [|p pre]; [discriminate|].
      rewrite append_cons in H. injection H as _ H. apply (IH pre H).
Qed.

(** X4: the message of line 135 neither begins nor ends with a white-space
    character: the newline that ends the last line of the traceback is not
    sent. *)
Theorem traceback_message_stripped traceback_lines :
  (∀ c rest, traceback_message traceback_lines = String c rest → char_isspace c = false)
  ∧ (∀ pre c, traceback_message traceback_lines = pre +:+ String c EmptyString →
       char_isspace c = false).
Proof.
  unfold traceback_message, str_strip. split.
  - intros c rest H.
    destruct (str_lstrip (str_concat traceback_lines)) as [|a r] eqn:E; [discriminate|].
    pose proof (str_lstrip_head _ _ _ E) as Ha.
    rewrite (str_rstrip_cons a r Ha) in H. injection H as <- _. exact Ha.
  - intros pre c H. apply (str_rstrip_last _ _ _ H).
Qed.

Lemma traceback_message_stripped_witness :
  traceback_message ["  a"; "b " +:+ nl] = "ab"
  ∧ char_isspace "a" = false ∧ char_isspace "b" = false.
Proof.
  split; [reflexivity|]. split.
  - apply (proj1 (traceback_message_stripped ["  a"; "b " +:+ nl]) "a"%char "b").
    reflexivity.
  - apply (proj2 (traceback_message_stripped ["  a"; "b " +:+ nl]) "a" "b"%char).
    reflexivity.
Defined.

(** * More of the namespace, the handlers and the channels *)

Lemma setup_namespace_overrides o1 n1 o2 n2 (ns : gmap string value) :
  setup_namespace o2 n2 (setup_namespace o1 n1 ns) = setup_namespace o2 n2 ns.
Proof.
  apply map_eq. intros x.
  destruct (decide (x = "__file__")) as [->|Hf].
  { rewrite !setup_namespace_file. reflexivity. }
  destruct (decide (x = "__name__")) as [->|Hn].
  { rewrite !setup_namespace_name. reflexivity. }
  rewrite !setup_namespace_other by assumption. reflexivity.
Qed.

(** X5: the setup of a call replaces what the setup of the call before it
    bound: after two setups in a row the state is the one the second alone
    gives, so nothing of the earlier [exec_origin] or [name_var] is left. *)
Theorem main_setup_overrides o1 n1 o2 n2 st :
  main_setup o2 n2 (main_setup o1 n1 st) = main_setup o2 n2 st.
Proof.
  unfold main_setup, update_exec_globals, get_exec_globals.
  destruct st as [[ns|] h]; simpl; rewrite setup_namespace_overrides; reflexivity.
Qed.

(** X6: in a process where the dictionary is not bound yet, the first setup
    creates it: the script sees [__IsVsCodeExec__] bound to [True] and
    [__builtins__] bound to the builtins, and besides [__file__] and
    [__name__] no other name. *)
Theorem main_setup_fresh exec_origin name_var st :
  vscode_variables st = None →
  exec_globals (main_setup exec_origin name_var st) !! "__IsVsCodeExec__"
  = Some (VBool true)
  ∧ exec_globals (main_setup exec_origin name_var st) !! "__builtins__" = Some VBuiltins
  ∧ ∀ x, x ≠ "__IsVsCodeExec__" → x ≠ "__builtins__" → x ≠ "__file__" → x ≠ "__name__" →
      exec_globals (main_setup exec_origin name_var st) !! x = None.
Proof.
  intros Hfresh. rewrite exec_globals_main_setup.
  assert (exec_globals (get_exec_globals st) = new_exec_globals) as ->.
  { unfold exec_globals, get_exec_globals. rewrite Hfresh. reflexivity. }
  split; [|split].
  - rewrite setup_namespace_other by discriminate. reflexivity.
  - rewrite setup_namespace_other by discriminate. reflexivity.
  - intros x H1 H2 H3 H4. rewrite setup_namespace_other by assumption.
    unfold new_exec_globals. rewrite !lookup_insert_ne by congruence. apply lookup_empty.
Qed.

Lemma main_setup_fresh_witness :
  exec_globals (main_setup Mini.demo None Mini.st0) !! "__IsVsCodeExec__"
  = Some (VBool true)
  ∧ exec_globals (main_setup Mini.demo None Mini.st0) !! "x" = None.
Proof.
  pose proof (main_setup_fresh Mini.demo None Mini.st0 eq_refl) as (H1 & _ & H3).
  split; [exact H1|]. apply H3; discriminate.
Defined.

Section More.

Set Default Proof Using "Type".

Variable code_object : Type.
Variable py_compile : string → string → compile_error + code_object.
Variable py_exec :
  code_object → gmap string value → host → outcome * gmap string value * host.
Variable tempdir : string.
Variable os_path_join : string → string → string.

Local Abbreviation try_body := (try_body code_object py_compile py_exec).
Local Abbreviation execute_code := (execute_code code_object py_compile py_exec).
Local Abbreviation read_and_execute := (read_and_execute code_object py_compile py_exec).
Local Abbreviation main := (main code_object py_compile py_exec tempdir os_path_join).

(** The ways [execute_code] ends once the text is compiled and executed:
    the host is the one the script left, with one more message when the
    exception was caught and formatted. *)
Lemma execute_code_cases code filename dbg st co out ns' h' :
  py_compile code filename = inr co →
  py_exec co (exec_globals (get_exec_globals st)) (the_host st) = (out, ns', h') →
  match out with
  | Returned =>
      execute_code code filename dbg st
      = (Returned, {| vscode_variables := Some ns'; the_host := h' |})
  | Raised e =>
      if isinstance_Exception (exn_class_of e) then
        match exn_format e with
        | Formatted lines =>
            ∃ traceback_lines,
              reformat_traceback lines = Some traceback_lines
              ∧ execute_code code filename dbg st
                = (Returned,
                   {| vscode_variables := Some ns';
                      the_host := call (unreal_log_error h')
                                    (traceback_message traceback_lines) h' |})
        | FormatRaises e' =>
            execute_code code filename dbg st
            = (Raised e', {| vscode_variables := Some ns'; the_host := h' |})
        end
      else
        execute_code code filename dbg st
        = (Raised e, {| vscode_variables := Some ns'; the_host := h' |})
  end.
Proof.
  intros Hc He. unfold_execute_code. rewrite Hc, the_host_get_exec_globals, He.
  destruct out as [|e]; [reflexivity|].
  destruct (isinstance_Exception (exn_class_of e)); [|reflexivity].
  unfold handler. destruct (exn_format e) as [lines|e']; [|reflexivity].
  destruct (reformat_traceback_kept lines) as (ls & Hls & _).
  exists ls. split; [exact Hls|]. rewrite Hls. reflexivity.
Qed.

(** [main] once the file is opened and read. *)
Lemma main_read exec_file exec_origin command_id is_debugging name_var st f text :
  open_file (files (the_host st)) exec_file = inr f →
  read_file f = inr text →
  main exec_file exec_origin command_id is_debugging name_var st
  = if is_debugging then
      (fst (execute_code text exec_origin true (entered (main_setup exec_origin name_var st))),
       set_host
         (UnrealLogRedirectDebugging_exit (block_object (main_setup exec_origin name_var st))
            (the_host (snd (execute_code text exec_origin true
                              (entered (main_setup exec_origin name_var st))))))
         (snd (execute_code text exec_origin true
                 (entered (main_setup exec_origin name_var st)))))
    else execute_code text exec_origin false (main_setup exec_origin name_var st).
Proof.
  intros Ho Hr. unfold_main. rewrite the_host_main_setup, Ho.
  destruct is_debugging; cbn [negb].
  - rewrite with_UnrealLogRedirectDebugging_eq. unfold_read_and_execute. rewrite Hr.
    reflexivity.
  - unfold_read_and_execute. rewrite Hr. reflexivity.
Qed.

Lemma exec_globals_get_main_setup exec_origin name_var st :
  exec_globals (get_exec_globals (main_setup exec_origin name_var st))
  = setup_namespace exec_origin name_var (exec_globals (get_exec_globals st)).
Proof.
  rewrite get_exec_globals_id by (rewrite main_setup_namespace; eauto).
  apply exec_globals_main_setup.
Qed.

Lemma exec_globals_get_entered s :
  exec_globals (get_exec_globals (entered s)) = exec_globals (get_exec_globals s).
Proof. destruct s as [[ns|] h]; reflexivity. Qed.

(** X8: when the text does not compile, with an exception that is an
    instance of [Exception], the script is not executed: [execute_code]
    returns normally, the module global is as it was (a dictionary that was
    not bound is not created), and one message was passed to
    [unreal.log_error]. *)
Theorem execute_code_compile_error code filename dbg st e :
  py_compile code filename = inl e →
  isinstance_Exception (ce_class e) = true →
  fst (execute_code code filename dbg st) = Returned
  ∧ vscode_variables (snd (execute_code code filename dbg st)) = vscode_variables st
  ∧ files (the_host (snd (execute_code code filename dbg st))) = files (the_host st)
  ∧ ∃ msg,
      outputs (the_host (snd (execute_code code filename dbg st)))
      = outputs (the_host st) ++ [emit (unreal_log_error (the_host st)) msg].
Proof.
  intros Hc Hi. unfold_execute_code. rewrite Hc. cbn [compile_exn exn_class_of].
  rewrite Hi.
  destruct (handler_logs (compile_exn e) st (ce_formatted e) eq_refl) as (ls & _ & ->).
  repeat split. eexists. reflexivity.
Qed.

(** X9: whatever the outcome of the script (it returned, it raised an
    exception that was caught, or one that was not), the dictionary after
    [execute_code] is the one the script left: what the script bound before
    it raised stays bound. *)
Theorem execute_code_no_rollback code filename dbg st co out ns' h' :
  py_compile code filename = inr co →
  py_exec co (exec_globals (get_exec_globals st)) (the_host st) = (out, ns', h') →
  vscode_variables (snd (execute_code code filename dbg st)) = Some ns'.
Proof.
  intros Hc He. rewrite (execute_code_runs_script _ py_compile py_exec _ _ _ _ co Hc), He.
  reflexivity.
Qed.


(** X12: outside debugging mode [main] does not touch the three handlers:
    after the call they are the ones the script left, so a handler that a
    script replaces stays replaced for the calls that follow. *)
Theorem main_plain_keeps_script_handlers
    exec_file exec_origin command_id name_var st f text co out ns' h' :
  open_file (files (the_host st)) exec_file = inr f →
  read_file f = inr text →
  py_compile text exec_origin = inr co →
  py_exec co (setup_namespace exec_origin name_var (exec_globals (get_exec_globals st)))
    (the_host st) = (out, ns', h') →
  unreal_log (the_host (snd (main exec_file exec_origin command_id false name_var st)))
  = unreal_log h'
  ∧ unreal_log_error (the_host (snd (main exec_file exec_origin command_id false name_var st)))
    = unreal_log_error h'
  ∧ unreal_log_warning (the_host (snd (main exec_file exec_origin command_id false name_var st)))
    = unreal_log_warning h'.
Proof.
  intros Ho Hr Hc He. rewrite (main_read _ _ _ false _ _ f text Ho Hr).
  rewrite <- exec_globals_get_main_setup, <- (the_host_main_setup exec_origin name_var st) in He.
  pose proof (execute_code_cases text exec_origin false _ co out ns' h' Hc He) as Hcases.
  destruct out as [|e].
  - rewrite Hcases. auto.
  - destruct (isinstance_Exception (exn_class_of e)).
    + destruct (exn_format e).
      * destruct Hcases as (ls & _ & ->). auto.
      * rewrite Hcases. auto.
    + rewrite Hcases. auto.
Qed.

(** X13: in debugging mode the message of a caught exception goes to the
    logger, not to the error channel of the host: when the script raises an
    instance of [Exception] that [traceback.format_exception] formats, and
    leaves a redirection method in [unreal.log_error], [main] returns
    normally and the one message it adds is an error record of the logger. *)
Theorem main_debugging_error_to_logger
    exec_file exec_origin command_id name_var st f text co e lines ns' h' self :
  open_file (files (the_host st)) exec_file = inr f →
  read_file f = inr text →
  py_compile text exec_origin = inr co →
  py_exec co (setup_namespace exec_origin name_var (exec_globals (get_exec_globals st)))
    (the_host (entered (main_setup exec_origin name_var st))) = (Raised e, ns', h') →
  isinstance_Exception (exn_class_of e) = true →
  exn_format e = Formatted lines →
  unreal_log_error h' = redirect_error self →
  fst (main exec_file exec_origin command_id true name_var st) = Returned
  ∧ ∃ msg,
      outputs (the_host (snd (main exec_file exec_origin command_id true name_var st)))
      = outputs h' ++ [LoggerError msg].
Proof.
  intros Ho Hr Hc He Hi Hf Hself. rewrite (main_read _ _ _ true _ _ f text Ho Hr).
  assert (exec_globals (get_exec_globals (entered (main_setup exec_origin name_var st)))
          = setup_namespace exec_origin name_var (exec_globals (get_exec_globals st)))
    as Hns.
  { rewrite exec_globals_get_entered. apply exec_globals_get_main_setup. }
  rewrite <- Hns in He.
  pose proof (execute_code_cases text exec_origin true _ co _ ns' h' Hc He) as Hcases.
  cbn beta iota in Hcases. rewrite Hi, Hf in Hcases. destruct Hcases as (ls & _ & ->).
  split; [reflexivity|]. exists (traceback_message ls).
  cbn [fst snd the_host set_host]. unfold UnrealLogRedirectDebugging_exit, set_handlers.
  cbn [outputs]. unfold call, add_output. cbn [outputs]. rewrite Hself. reflexivity.
Qed.

(** X14: [main] itself sends at most one message in a call, and only
    through [unreal.log_error]: what the channels hold after the call is
    what they held before, or what one execution of the script left there,
    followed by at most one message passed to the callable that the script
    left in [unreal.log_error]. *)
Theorem main_sends_at_most_one exec_file exec_origin command_id is_debugging name_var st :
  outputs (the_host (snd (main exec_file exec_origin command_id is_debugging name_var st)))
  = outputs (the_host st)
  ∨ (∃ msg,
       outputs (the_host (snd (main exec_file exec_origin command_id is_debugging name_var st)))
       = outputs (the_host st) ++ [emit (unreal_log_error
           (the_host (if is_debugging then entered (main_setup exec_origin name_var st)
                      else st))) msg])
  ∨ ∃ co ns h out ns' h',
      outputs h = outputs (the_host st)
      ∧ py_exec co ns h = (out, ns', h')
      ∧ (outputs (the_host (snd (main exec_file exec_origin command_id is_debugging name_var st)))
         = outputs h'
         ∨ ∃ msg,
             outputs (the_host (snd (main exec_file exec_origin command_id is_debugging
                                       name_var st)))
             = outputs h' ++ [emit (unreal_log_error h') msg]).
Proof.
  destruct (open_file (files (the_host st)) exec_file) as [e'|f] eqn:Ho.
  { left. unfold_main. rewrite the_host_main_setup, Ho. cbn [snd].
    rewrite the_host_main_setup. reflexivity. }
  destruct (read_file f) as [e'|text] eqn:Hr.
  { left. unfold_main. rewrite the_host_main_setup, Ho.
    destruct is_debugging; cbn [negb].
    - rewrite with_UnrealLogRedirectDebugging_eq. unfold_read_and_execute. rewrite Hr.
      cbn [fst snd the_host set_host]. unfold UnrealLogRedirectDebugging_exit, set_handlers.
      cbn [outputs]. rewrite outputs_entered, the_host_main_setup. reflexivity.
    - unfold_read_and_execute. rewrite Hr. cbn [snd].
      rewrite the_host_main_setup. reflexivity. }
  rewrite (main_read _ _ _ _ _ _ f text Ho Hr).
  assert (∀ s, outputs (the_host s) = outputs (the_host st) →
    outputs (the_host (snd (execute_code text exec_origin is_debugging s)))
    = outputs (the_host st)
    ∨ (∃ msg, outputs (the_host (snd (execute_code text exec_origin is_debugging s)))
              = outputs (the_host st) ++ [emit (unreal_log_error (the_host s)) msg])
    ∨ ∃ co ns h out ns' h',
        outputs h = outputs (the_host st)
        ∧ py_exec co ns h = (out, ns', h')
        ∧ (outputs (the_host (snd (execute_code text exec_origin is_debugging s)))
           = outputs h'
           ∨ ∃ msg, outputs (the_host (snd (execute_code text exec_origin is_debugging s)))
                    = outputs h' ++ [emit (unreal_log_error h') msg])) as Hex.
  { intros s Hs. destruct (py_compile text exec_origin) as [e|co] eqn:Hc.
    - unfold_execute_code. rewrite Hc.
      destruct (isinstance_Exception (exn_class_of (compile_exn e))); [|left; exact Hs].
      right. left.
      destruct (handler_logs (compile_exn e) s (ce_formatted e) eq_refl) as (ls & _ & ->).
      exists (traceback_message ls). cbn. rewrite Hs. reflexivity.
    - right. right.
      destruct (py_exec co (exec_globals (get_exec_globals s)) (the_host s))
        as [[out ns'] h'] eqn:He.
      exists co, (exec_globals (get_exec_globals s)), (the_host s), out, ns', h'.
      split; [exact Hs|]. split; [exact He|].
      pose proof (execute_code_cases text exec_origin is_debugging s co out ns' h' Hc He)
        as Hcases.
      destruct out as [|e].
      + rewrite Hcases. left. reflexivity.
      + destruct (isinstance_Exception (exn_class_of e)).
        * destruct (exn_format e).
          -- destruct Hcases as (ls & _ & ->). right. eexists. reflexivity.
          -- rewrite Hcases. left. reflexivity.
        * rewrite Hcases. left. reflexivity. }
  destruct is_debugging.
  - cbn [snd the_host set_host]. unfold UnrealLogRedirectDebugging_exit, set_handlers.
    cbn [outputs]. apply Hex. rewrite outputs_entered, the_host_main_setup. reflexivity.
  - destruct (Hex (main_setup exec_origin name_var st)) as [H|[[msg H]|H]].
    + rewrite the_host_main_setup. reflexivity.
    + left. exact H.
    + right. left. exists msg. rewrite H, the_host_main_setup. reflexivity.
    + right. right. exact H.
Qed.

End More.

(** ** Examples and witnesses *)

Lemma execute_code_twice_witness :
  exec_globals
    (snd (Mini.execute_code Mini.src_y_is_x Mini.demo false
            (snd (Mini.execute_code Mini.src_x_is_1 Mini.demo false Mini.st0)))) !! "y"
  = Some (VInt 1).
Proof.
  unfold exec_globals, Mini.execute_code.
  rewrite (execute_code_twice Mini.code Mini.compile Mini.exec
             Mini.src_x_is_1 Mini.demo false Mini.src_y_is_x Mini.demo false Mini.st0
             (Mini.compiled Mini.src_x_is_1 Mini.demo (Mini.Assign "x" (VInt 1)))
             (Mini.compiled Mini.src_y_is_x Mini.demo (Mini.CopyName "y" "x"))
             eq_refl eq_refl).
  reflexivity.
Defined.

Lemma execute_code_compile_error_witness :
  fst (Mini.execute_code "x = = 1" Mini.demo false Mini.st0) = Returned
  ∧ vscode_variables (snd (Mini.execute_code "x = = 1" Mini.demo false Mini.st0)) = None
  ∧ ∃ msg,
      outputs (the_host (snd (Mini.execute_code "x = = 1" Mini.demo false Mini.st0)))
      = [HostLogError msg].
Proof.
  pose proof (execute_code_compile_error Mini.code Mini.compile Mini.exec
                "x = = 1" Mini.demo false Mini.st0 (Mini.SyntaxError "x = = 1" Mini.demo)
                eq_refl eq_refl) as (H1 & H2 & _ & H4).
  split; [exact H1|]. split; [exact H2 | exact H4].
Defined.

(** The message of that syntax error: the location line has lost the quote
    that opens the path and has no line number after the path. *)
Example execute_code_syntax_error_message :
  outputs (the_host (snd (Mini.execute_code "x = = 1" Mini.demo false Mini.st0)))
  = [HostLogError
       ("Traceback (most recent call last):" +:+ nl
        +:+ "  File C:/proj/demo.py" +:+ dq +:+ ", line 1" +:+ nl
        +:+ "    x = = 1" +:+ nl
        +:+ "        ^" +:+ nl
        +:+ "SyntaxError: invalid syntax")].
Proof. reflexivity. Qed.

Lemma execute_code_no_rollback_witness :
  vscode_variables (snd (Mini.execute_code Mini.src_y_is_x Mini.demo false Mini.st0))
  = Some new_exec_globals.
Proof.
  apply (execute_code_no_rollback Mini.code Mini.compile Mini.exec
           Mini.src_y_is_x Mini.demo false Mini.st0
           (Mini.compiled Mini.src_y_is_x Mini.demo (Mini.CopyName "y" "x"))
           (Raised Mini.name_error) new_exec_globals Mini.host0);
    reflexivity.
Defined.


(** The fourth case: the exception that leaves [main] is the one the
    formatting raised, an instance of [Exception]. *)
Example main_format_failure :
  fst (Illformed.main (Mini.tmp "illformed.py") Mini.demo "1" false None Illformed.st0)
  = Raised Illformed.attribute_error
  ∧ outputs (the_host (snd (Illformed.main (Mini.tmp "illformed.py") Mini.demo "1" false
                              None Illformed.st0))) = [].
Proof. split; reflexivity. Qed.

Lemma main_plain_keeps_script_handlers_witness :
  unreal_log (the_host (snd (Rebind.main (Mini.tmp "rebind.py") "C:/proj/rebind.py" "1"
                               false None Rebind.st0)))
  = Rebind.print_builtin.
Proof.
  apply (proj1 (main_plain_keeps_script_handlers unit Rebind.compile Rebind.exec
                  Mini.tempdir Mini.path_join
                  (Mini.tmp "rebind.py") "C:/proj/rebind.py" "1" None Rebind.st0
                  (file_text Rebind.src) Rebind.src tt Returned
                  (<["unreal" := VModule "unreal"]>
                     (setup_namespace "C:/proj/rebind.py" None new_exec_globals))
                  (set_handlers Rebind.print_builtin host_log_error host_log_warning
                     Rebind.host0)
                  eq_refl eq_refl eq_refl eq_refl)).
Defined.

(** The same script in debugging mode: the handler it put in [unreal.log]
    is gone after the call. *)
Example main_debugging_undoes_rebinding :
  unreal_log (the_host (snd (Rebind.main (Mini.tmp "rebind.py") "C:/proj/rebind.py" "1"
                               true None Rebind.st0)))
  = host_log.
Proof. reflexivity. Qed.

Lemma main_debugging_error_to_logger_witness :
  fst (Mini.main (Mini.tmp "boom.py") Mini.demo "1" true None Mini.st0) = Returned
  ∧ ∃ msg,
      outputs (the_host (snd (Mini.main (Mini.tmp "boom.py") Mini.demo "1" true None
                                Mini.st0)))
      = [LoggerError msg].
Proof.
  apply (main_debugging_error_to_logger Mini.code Mini.compile Mini.exec
           Mini.tempdir Mini.path_join
           (Mini.tmp "boom.py") Mini.demo "1" None Mini.st0
           (file_text Mini.src_value_error) Mini.src_value_error
           (Mini.compiled Mini.src_value_error Mini.demo
              (Mini.Raise (ExceptionSubclass "ValueError") "ValueError" "boom"))
           Mini.value_error (Mini.formatted_lines Mini.value_error)
           (setup_namespace Mini.demo None new_exec_globals)
           (the_host (entered (main_setup Mini.demo None Mini.st0))) 0);
    reflexivity.
Defined.
